(** * Weather gateway: a shallow embedding of [weather-server.go]

  The server accepts a coordinate pair, resolves it through the two-step
  National Weather Service lookup, picks a forecast period, normalises the
  temperature to Fahrenheit and buckets it as cold / moderate / hot.

  Layout of this file:
  - [Float64]  : Go's [float64] as IEEE-754 binary64 ([spec_float] at
                 precision 53), with the conversions the program uses;
  - [Strings]  : the two functions of package [strings] that are called;
  - the data model ([ForecastPeriod], [WeatherResponse], ...);
  - [getTempType], the period scan, [fetchForecast], [GetForecast] and
    [ServeHTTP], in an error monad that also records a trace of the
    outbound calls and log lines;
  - models of the library collaborators used to run examples;
  - the theorems. *)

From Stdlib Require Import ZArith String Ascii List Lia SpecFloat.
From Stdlib Require Import DecimalString DecimalZ.
From stdpp Require Import gmap strings.

Open Scope string_scope.
Open Scope list_scope.
Open Scope Z_scope.

(* ===================================================================== *)
(** * Go's float64                                                        *)
(* ===================================================================== *)

Module Float64.

(** binary64: 53 bits of mantissa, infinities at exponent 1024. *)
Definition prec : Z := 53.
Definition emax : Z := 1024.

Abbreviation float64 := spec_float.

Definition add : float64 -> float64 -> float64 := SFadd prec emax.
Definition mul : float64 -> float64 -> float64 := SFmul prec emax.
Definition div : float64 -> float64 -> float64 := SFdiv prec emax.

(** The ordered comparisons of Go; every comparison with a NaN is false. *)
Definition ltb (x y : float64) : bool := SFltb x y.
Definition leb (x y : float64) : bool := SFleb x y.
Definition gtb (x y : float64) : bool := SFltb y x.
Definition geb (x y : float64) : bool := SFleb y x.

(** [float64(n)] for an integer [n]: the nearest binary64, ties to even. *)
Definition of_int (n : Z) : float64 := binary_normalize prec emax n 0 false.

(** An untyped decimal constant [num/den] of the program text, converted
    to float64 where it meets a float64 operand.  Numerator and
    denominator are exact in binary64 for the constants of this program,
    so the correctly rounded quotient is the nearest binary64. *)
Definition const (num den : Z) : float64 := div (of_int num) (of_int den).

Definition is_nan (x : float64) : bool :=
  match x with S754_nan => true | _ => false end.

Definition is_finite (x : float64) : bool :=
  match x with S754_zero _ | S754_finite _ _ _ => true | _ => false end.

(** The integer part of a finite value, fraction discarded. *)
Definition trunc (x : float64) : option Z :=
  match x with
  | S754_zero _ => Some 0
  | S754_finite s m e =>
      let a := if 0 <=? e then Z.pos m * 2 ^ e else Z.pos m / 2 ^ (- e) in
      Some (if s then - a else a)
  | _ => None
  end.

Definition min_int : Z := - 2 ^ 63.
Definition max_int : Z := 2 ^ 63 - 1.

(** [int(x)] for a float64 [x]: truncation towards zero.  When the
    integer part does not fit Go's 64-bit [int] (or [x] is a NaN or an
    infinity) the language leaves the result to the implementation;
    [overflow] supplies it. *)
Definition to_int (overflow : float64 -> Z) (x : float64) : Z :=
  match trunc x with
  | Some v => if (min_int <=? v) && (v <=? max_int) then v else overflow x
  | None => overflow x
  end.

End Float64.

Import Float64.

(* ===================================================================== *)
(** * Package strings                                                     *)
(* ===================================================================== *)

Module Strings.

(** One byte of [strings.ToLower]: 'A'..'Z' to 'a'..'z'. *)
Definition lower (c : ascii) : ascii :=
  let n := nat_of_ascii c in
  if (Nat.leb 65 n && Nat.leb n 90)%bool then ascii_of_nat (n + 32) else c.

(** [strings.ToLower] on the bytes of the string.  Go lower-cases by
    Unicode rune; no rune outside ASCII lower-cases to one of the ASCII
    letters, 't' 'o' 'd' 'a' 'y', that the program looks for, so the
    byte-wise map decides the same [Contains] test. *)
Fixpoint ToLower (s : string) : string :=
  match s with
  | EmptyString => EmptyString
  | String c rest => String (lower c) (ToLower rest)
  end.

(** [strings.Contains s substr]. *)
Fixpoint Contains (s substr : string) : bool :=
  String.prefix substr s ||
  match s with
  | EmptyString => false
  | String _ rest => Contains rest substr
  end.

End Strings.

(* ===================================================================== *)
(** * Temperature classifier                                              *)
(* ===================================================================== *)

Definition hot_bound : float64 := const 895 10.
Definition moderate_bound : float64 := const 608 10.

(** [getTempType]: simple temperature bucketing. *)
Definition getTempType (temp : float64) : string :=
  if geb temp hot_bound then "hot"
  else if geb temp moderate_bound then "moderate"
  else "cold".

(** Bounded exhaustive check: [f] holds at lo, lo+1, ..., lo+n-1. *)
Fixpoint check_from (lo : Z) (n : nat) (f : Z -> bool) : bool :=
  match n with
  | O => true
  | S k => f lo && check_from (lo + 1) k f
  end.

(* ===================================================================== *)
(** * Data model                                                          *)
(* ===================================================================== *)

Module Location.
Record t := { Lat : float64; Lng : float64 }.
End Location.

Module WeatherResponse.
Record t := {
  Location : Location.t;
  Forecast : string;
  Temp : Z;
  TempType : string;
  Details : string;
  LastUpdated : string
}.
End WeatherResponse.

Module ErrorResponse.
Record t := { Error : string; Message : string }.
End ErrorResponse.

(** [PointsResponse]: only [Properties.Forecast] is kept by the program. *)
Module PointsResponse.
Record t := { Forecast : string }.
End PointsResponse.

Module ForecastPeriod.
Record t := {
  Name : string;
  IsDaytime : bool;
  Temperature : Z;
  TemperatureUnit : string;
  ShortForecast : string;
  DetailedForecast : string
}.
End ForecastPeriod.

(** [ForecastResponse]: [Properties.Periods]. *)
Module ForecastResponse.
Record t := { Periods : list ForecastPeriod.t }.
End ForecastResponse.

(** The inbound request as [ServeHTTP] reads it: [r.Method] and
    [r.URL.Query()], a [url.Values], that is, a map from a key to the list
    of its values. *)
Module Request.
Record t := { Method : string; Query : gmap string (list string) }.
End Request.

(** [url.Values.Get]: the first value of the key, or the empty string. *)
Definition Values_Get (v : gmap string (list string)) (key : string) : string :=
  match v !! key with
  | Some (first :: _) => first
  | _ => ""
  end.

(** An outbound request, as [http.NewRequest] builds it. *)
Module ClientRequest.
Record t := { Method : string; URL : string; Header : gmap string string }.
End ClientRequest.

(** [req.Header.Set]. *)
Definition Header_Set (req : ClientRequest.t) (key value : string) : ClientRequest.t :=
  {| ClientRequest.Method := ClientRequest.Method req;
     ClientRequest.URL := ClientRequest.URL req;
     ClientRequest.Header := <[key := value]> (ClientRequest.Header req) |}.

(** What the program reads of an upstream [http.Response]. *)
Module ClientResponse.
Record t := { StatusCode : Z; Body : string }.
End ClientResponse.

Definition StatusOK : Z := 200.
Definition StatusBadRequest : Z := 400.
Definition StatusMethodNotAllowed : Z := 405.
Definition StatusInternalServerError : Z := 500.
Definition MethodGet : string := "GET".

(** What has been written to the [http.ResponseWriter] when the handler
    returns: the header map, the status line and the value that the JSON
    encoder wrote, [NoPayload] when it wrote nothing. *)
Inductive payload : Type :=
| NoPayload
| ErrorPayload (e : ErrorResponse.t)
| WeatherPayload (w : WeatherResponse.t).

Module Reply.
Record t := { Header : gmap string string; StatusCode : Z; Body : payload }.
End Reply.

(* ===================================================================== *)
(** * Errors, effects and the environment                                 *)
(* ===================================================================== *)

(** The errors [GetForecast] and [fetchForecast] create, one constructor
    per [fmt.Errorf] of the source; [cause] is the text of the wrapped
    error. *)
Inductive error : Type :=
| ErrCreatePointsRequest (cause : string)
| ErrFetchPoints (cause : string)
| ErrPointsStatus (code : Z)
| ErrDecodePoints (cause : string)
| ErrNoForecastURL
| ErrCreateForecastRequest (cause : string)
| ErrFetchForecast (cause : string)
| ErrForecastStatus (code : Z)
| ErrDecodeForecast (cause : string)
| ErrNoPeriods.

(** The verb [%d]. *)
Definition itoa (n : Z) : string := NilZero.string_of_int (Z.to_int n).

(** [err.Error()]. *)
Definition error_text (e : error) : string :=
  match e with
  | ErrCreatePointsRequest cause => "failed to create points request: " +:+ cause
  | ErrFetchPoints cause => "failed to fetch points data: " +:+ cause
  | ErrPointsStatus code => "NWS points API returned status " +:+ itoa code
  | ErrDecodePoints cause => "failed to decode points response: " +:+ cause
  | ErrNoForecastURL => "no forecast URL available for this location"
  | ErrCreateForecastRequest cause => "failed to create forecast request: " +:+ cause
  | ErrFetchForecast cause => "failed to fetch forecast data: " +:+ cause
  | ErrForecastStatus code => "NWS forecast API returned status " +:+ itoa code
  | ErrDecodeForecast cause => "failed to decode forecast response: " +:+ cause
  | ErrNoPeriods => "no forecast periods available"
  end.

(** What a run leaves behind outside its return value.  [CallGetForecast]
    is a ghost mark put where [GetForecast] is entered, so that
    "the resolver is not invoked" can be read off the trace. *)
Inductive event : Type :=
| CallGetForecast (lat lon : float64)
| HttpDo (req : ClientRequest.t)
| LogPrintf (line : string).

(** The library and platform the program runs against. *)
Record Env := {
  (** [strconv.ParseFloat(s, 64)]; [None] when it returns an error. *)
  strconv_ParseFloat : string -> option float64;
  (** [fmt.Sprintf("%.4f", x)]. *)
  fmt_Sprintf_4f : float64 -> string;
  (** Why [http.NewRequest] rejects the URL, if it does. *)
  http_NewRequest_err : string -> option string;
  (** [httpClient.Do], the [n]-th outbound call of the run (from 0): a
      transport error (refused, timed out after the client's 10 seconds,
      ...) or a response. *)
  http_Do : nat -> ClientRequest.t -> string + ClientResponse.t;
  (** [json.NewDecoder(body).Decode] into the two response types. *)
  json_Decode_points : string -> string + PointsResponse.t;
  json_Decode_forecast : string -> string + ForecastResponse.t;
  (** [time.Now().Format("2006-01-02 15:04:05 MST")]. *)
  time_Now_Format : string;
  (** [int(x)] where [x] is not representable: implementation-dependent. *)
  int_overflow : float64 -> Z
}.

(** Computations that may fail with an [error] and that extend a trace. *)
Definition M (A : Type) : Type := list event -> (error + A) * list event.

#[export] Instance M_ret : MRet M := fun A (a : A) tr => (inr a, tr).

#[export] Instance M_bind : MBind M := fun A B (k : A -> M B) (c : M A) tr =>
  match c tr with
  | (inl e, tr') => (inl e, tr')
  | (inr a, tr') => k a tr'
  end.

Definition fail {A : Type} (e : error) : M A := fun tr => (inl e, tr).

Definition emit (ev : event) : M unit := fun tr => (inr tt, tr ++ [ev]).

(** Turn a library result into the program's error, as [fmt.Errorf("...: %w")]. *)
Definition wrap {A : Type} (mk : string -> error) (r : string + A) : M A :=
  match r with
  | inl cause => fail (mk cause)
  | inr a => mret a
  end.

Definition is_HttpDo (ev : event) : bool :=
  match ev with HttpDo _ => true | _ => false end.

(** The number of outbound calls made so far. *)
Definition outbound (tr : list event) : nat := length (List.filter is_HttpDo tr).

(** [http.NewRequest(method, url, nil)]. *)
Definition NewRequest (env : Env) (method url : string) : string + ClientRequest.t :=
  match http_NewRequest_err env url with
  | Some cause => inl cause
  | None => inr {| ClientRequest.Method := method;
                   ClientRequest.URL := url;
                   ClientRequest.Header := ∅ |}
  end.

(** [ws.httpClient.Do(req)]: recorded in the trace, answered by the world. *)
Definition Do (env : Env) (req : ClientRequest.t) : M (string + ClientResponse.t) :=
  fun tr => (inr (http_Do env (outbound tr) req), tr ++ [HttpDo req]).

Definition UserAgent : string := "WeatherApp/1.0 (contact@example.com)".

(* ===================================================================== *)
(** * The forecast resolver                                               *)
(* ===================================================================== *)

(** The test on a period's name in the scan. *)
Definition namedToday (period : ForecastPeriod.t) : bool :=
  Strings.Contains (Strings.ToLower (ForecastPeriod.Name period)) "today".

(** The loop of [fetchForecast] over [Periods], from index [i] on.
    [todayPeriod] is the pointer variable of the source: [None] is [nil],
    [Some (i, p)] points at [Periods[i]], whose contents [p] never change.
    The branch that assigns also leaves the loop. *)
Fixpoint scanPeriods (i : nat) (periods : list ForecastPeriod.t)
    (todayPeriod : option (nat * ForecastPeriod.t)) : option (nat * ForecastPeriod.t) :=
  match periods with
  | [] => todayPeriod
  | period :: rest =>
      if namedToday period
         || (bool_decide (todayPeriod = None) && ForecastPeriod.IsDaytime period)
      then Some (i, period)
      else scanPeriods (S i) rest todayPeriod
  end.

(** The scan followed by the fall-back to [Periods[0]]. *)
Definition selectPeriod (Periods : list ForecastPeriod.t) : option (nat * ForecastPeriod.t) :=
  let todayPeriod := scanPeriods 0 Periods None in
  if bool_decide (todayPeriod = None) && bool_decide (0 < length Periods)%nat
  then (fun p => (0%nat, p)) <$> head Periods
  else todayPeriod.

(** The expression [float64(temperature)*9/5 + 32]: the product, then the
    quotient, then the sum, each rounded to binary64. *)
Definition fahrenheit (temperature : Z) : float64 :=
  add (div (mul (of_int temperature) (of_int 9)) (of_int 5)) (of_int 32).

(** The temperature of the response: [int(float64(t)*9/5 + 32)] when the
    unit is "C", the period's own value otherwise. *)
Definition normalizeTemperature (env : Env) (todayPeriod : ForecastPeriod.t) : Z :=
  let temperature := ForecastPeriod.Temperature todayPeriod in
  if String.eqb (ForecastPeriod.TemperatureUnit todayPeriod) "C"
  then to_int (int_overflow env) (fahrenheit temperature)
  else temperature.

(** The response [fetchForecast] returns for the chosen period. *)
Definition buildResponse (env : Env) (todayPeriod : ForecastPeriod.t)
    (lat lon : float64) : WeatherResponse.t :=
  let temperature := normalizeTemperature env todayPeriod in
  let tempType := getTempType (of_int temperature) in
  {| WeatherResponse.Location := {| Location.Lat := lat; Location.Lng := lon |};
     WeatherResponse.Forecast := ForecastPeriod.ShortForecast todayPeriod;
     WeatherResponse.Temp := temperature;
     WeatherResponse.TempType := tempType;
     WeatherResponse.Details := ForecastPeriod.DetailedForecast todayPeriod;
     WeatherResponse.LastUpdated := time_Now_Format env |}.

(** [fetchForecast]. *)
Definition fetchForecast (env : Env) (forecastURL : string) (lat lon : float64)
    : M WeatherResponse.t :=
  req ← wrap ErrCreateForecastRequest (NewRequest env "GET" forecastURL);
  let req := Header_Set req "User-Agent" UserAgent in
  r ← Do env req;
  resp ← wrap ErrFetchForecast r;
  if negb (ClientResponse.StatusCode resp =? StatusOK)
  then fail (ErrForecastStatus (ClientResponse.StatusCode resp))
  else
    forecastResp ← wrap ErrDecodeForecast
                     (json_Decode_forecast env (ClientResponse.Body resp));
    match selectPeriod (ForecastResponse.Periods forecastResp) with
    | None => fail ErrNoPeriods
    | Some (_, todayPeriod) => mret (buildResponse env todayPeriod lat lon)
    end.

(** The URL of step 1. *)
Definition pointsURL (env : Env) (lat lon : float64) : string :=
  "https://api.weather.gov/points/" +:+ fmt_Sprintf_4f env lat +:+ ","
    +:+ fmt_Sprintf_4f env lon.

(** [GetForecast]: the two-step lookup. *)
Definition GetForecast (env : Env) (lat lon : float64) : M WeatherResponse.t :=
  _ ← emit (CallGetForecast lat lon);
  req ← wrap ErrCreatePointsRequest (NewRequest env "GET" (pointsURL env lat lon));
  let req := Header_Set req "User-Agent" UserAgent in
  r ← Do env req;
  resp ← wrap ErrFetchPoints r;
  if negb (ClientResponse.StatusCode resp =? StatusOK)
  then fail (ErrPointsStatus (ClientResponse.StatusCode resp))
  else
    pointsResp ← wrap ErrDecodePoints
                   (json_Decode_points env (ClientResponse.Body resp));
    let forecastURL := PointsResponse.Forecast pointsResp in
    if String.eqb forecastURL ""
    then fail ErrNoForecastURL
    else fetchForecast env forecastURL lat lon.

(* ===================================================================== *)
(** * The request handler                                                 *)
(* ===================================================================== *)

Definition jsonHeader : gmap string string :=
  <["Content-Type" := "application/json"]> ∅.

(** [json.NewEncoder(w).Encode(forecast)].  The encoder rejects a NaN or
    an infinity ("unsupported value") before it writes anything, and the
    handler drops the error it returns: the body stays empty and the
    status stays the implicit 200. *)
Definition json_Encode (forecast : WeatherResponse.t) : payload :=
  let location := WeatherResponse.Location forecast in
  if is_finite (Location.Lat location) && is_finite (Location.Lng location)
  then WeatherPayload forecast
  else NoPayload.

(** [sendError]. *)
Definition sendError (statusCode : Z) (error message : string) : Reply.t :=
  {| Reply.Header := jsonHeader;
     Reply.StatusCode := statusCode;
     Reply.Body := ErrorPayload {| ErrorResponse.Error := error;
                                   ErrorResponse.Message := message |} |}.

(** [ServeHTTP] on a fresh response writer: the reply and the trace of
    the run. *)
Definition ServeHTTP (env : Env) (r : Request.t) : Reply.t * list event :=
  if negb (String.eqb (Request.Method r) MethodGet)
  then (sendError StatusMethodNotAllowed "Method not allowed" "Only GET supported", [])
  else
    let latStr := Values_Get (Request.Query r) "lat" in
    let lonStr := Values_Get (Request.Query r) "lon" in
    if String.eqb latStr "" || String.eqb lonStr ""
    then (sendError StatusBadRequest "Missing coords" "Need both lat and lon params", [])
    else
      match strconv_ParseFloat env latStr with
      | None => (sendError StatusBadRequest "Bad latitude" "Must be a number", [])
      | Some lat =>
          match strconv_ParseFloat env lonStr with
          | None => (sendError StatusBadRequest "Bad longitude" "Must be a number", [])
          | Some lon =>
              if ltb lat (of_int (-90)) || gtb lat (of_int 90)
                 || ltb lon (of_int (-180)) || gtb lon (of_int 180)
              then (sendError StatusBadRequest "Invalid coords"
                      "Check your lat/lon values", [])
              else
                match GetForecast env lat lon [] with
                | (inl err, tr) =>
                    (sendError StatusInternalServerError "API error"
                       "Could not get forecast",
                     tr ++ [LogPrintf ("Forecast error: " +:+ error_text err)])
                | (inr forecast, tr) =>
                    ({| Reply.Header := jsonHeader;
                        Reply.StatusCode := StatusOK;
                        Reply.Body := json_Encode forecast |}, tr)
                end
          end
      end.

(** The classification as the response's integer [temp_f] sees it: hot
    from 90 up, moderate from 61 to 89, cold up to 60. *)
Definition int_bucket (temp_f : Z) : string :=
  if 90 <=? temp_f then "hot"
  else if 61 <=? temp_f then "moderate"
  else "cold".

(* ===================================================================== *)
(** * Models of the library collaborators                                 *)
(* ===================================================================== *)

(** The theorems below hold for every [Env].  To run the program on
    concrete requests an [Env] is needed; this part supplies the text
    conversions of the Go library, [strconv.ParseFloat] and the verb
    [%.4f], as functions on binary64. *)

Module Strconv.

Definition byte (c : ascii) : Z := Z.of_N (N_of_ascii c).

Definition isDigit (c : ascii) : bool := (48 <=? byte c) && (byte c <=? 57).

(** [lower(c)] of package strconv: [c | ('x' - 'X')]. *)
Definition lower (c : ascii) : Z := Z.lor (byte c) 32.

Definition isHexLetter (c : ascii) : bool := (97 <=? lower c) && (lower c <=? 102).

Fixpoint commonPrefixLenIgnoreCase (s prefix : string) : nat :=
  match s, prefix with
  | String c s', String p prefix' =>
      let c := if (65 <=? byte c) && (byte c <=? 90) then byte c + 32 else byte c in
      if c =? byte p then S (commonPrefixLenIgnoreCase s' prefix') else O
  | _, _ => O
  end.

(** The infinity spellings, after an optional sign. *)
Definition specialInf (sign : bool) (nsign : nat) (s : string) : option (float64 * nat) :=
  let n := commonPrefixLenIgnoreCase s "infinity" in
  let n := if (Nat.ltb 3 n && Nat.ltb n 8)%bool then 3%nat else n in
  if (Nat.eqb n 3 || Nat.eqb n 8)%bool
  then Some (S754_infinity sign, (nsign + n)%nat)
  else None.

(** [special]: the value and the number of bytes read when the text
    starts with an infinity or a NaN. *)
Definition special (s : string) : option (float64 * nat) :=
  match s with
  | EmptyString => None
  | String c rest =>
      if byte c =? 43 then specialInf false 1 rest
      else if byte c =? 45 then specialInf true 1 rest
      else if lower c =? 105 then specialInf false 0 s
      else if lower c =? 110
      then if Nat.eqb (commonPrefixLenIgnoreCase s "nan") 3
           then Some (S754_nan, 3%nat) else None
      else None
  end.

(** The mantissa read so far: the digits as one integer, how many of them
    came after the point, and what has been seen. *)
Record mantissa := {
  digits : Z;
  nfrac : Z;
  sawdot : bool;
  sawdigits : bool
}.

Definition pushDigit (base d : Z) (acc : mantissa) : mantissa :=
  {| digits := digits acc * base + d;
     nfrac := if sawdot acc then nfrac acc + 1 else nfrac acc;
     sawdot := sawdot acc;
     sawdigits := true |}.

(** The digit loop of [readFloat]; returns what is left of the text. *)
Fixpoint readMantissa (hex : bool) (s : string) (acc : mantissa) : mantissa * string :=
  match s with
  | EmptyString => (acc, s)
  | String c rest =>
      if byte c =? 95 then readMantissa hex rest acc
      else if byte c =? 46 then
        if sawdot acc then (acc, s)
        else readMantissa hex rest
               {| digits := digits acc; nfrac := nfrac acc;
                  sawdot := true; sawdigits := sawdigits acc |}
      else if isDigit c then
        readMantissa hex rest (pushDigit (if hex then 16 else 10) (byte c - 48) acc)
      else if hex && isHexLetter c then
        readMantissa hex rest (pushDigit 16 (lower c - 97 + 10) acc)
      else (acc, s)
  end.

(** The digits of the exponent; it stops growing at 10000. *)
Fixpoint readExpDigits (s : string) (e : Z) : Z * string :=
  match s with
  | EmptyString => (e, s)
  | String c rest =>
      if isDigit c then
        readExpDigits rest (if e <? 10000 then e * 10 + (byte c - 48) else e)
      else if byte c =? 95 then readExpDigits rest e
      else (e, s)
  end.

(** The optional exponent part: its value and the rest of the text, or
    [None] for a syntax error. *)
Definition readExponent (hex : bool) (s : string) : option (Z * string) :=
  match s with
  | String c rest =>
      if lower c =? (if hex then 112 else 101) then
        match rest with
        | EmptyString => None
        | String c1 rest1 =>
            let '(esign, digitsText) :=
              if byte c1 =? 43 then (1, rest1)
              else if byte c1 =? 45 then (-1, rest1)
              else (1, rest) in
            match digitsText with
            | String d _ =>
                if isDigit d then
                  let '(e, rest') := readExpDigits digitsText 0 in
                  Some (e * esign, rest')
                else None
            | EmptyString => None
            end
        end
      else if hex then None else Some (0, s)
  | EmptyString => if hex then None else Some (0, s)
  end.

Inductive saw := SawStart | SawDigit | SawUnderscore | SawOther.

Fixpoint underscoreScan (hex : bool) (s : string) (last : saw) : bool :=
  match s with
  | EmptyString => match last with SawUnderscore => false | _ => true end
  | String c rest =>
      if isDigit c || (hex && isHexLetter c) then underscoreScan hex rest SawDigit
      else if byte c =? 95 then
        match last with
        | SawDigit => underscoreScan hex rest SawUnderscore
        | _ => false
        end
      else
        match last with
        | SawUnderscore => false
        | _ => underscoreScan hex rest SawOther
        end
  end.

Definition dropSign (s : string) : string :=
  match s with
  | String c rest => if (byte c =? 43) || (byte c =? 45) then rest else s
  | EmptyString => s
  end.

(** [underscoreOK]: underscores only between digits, or between a base
    prefix and a digit. *)
Definition underscoreOK (s : string) : bool :=
  let s := dropSign s in
  match s with
  | String c0 (String c1 rest) =>
      if (byte c0 =? 48) && ((lower c1 =? 98) || (lower c1 =? 111) || (lower c1 =? 120))
      then underscoreScan (lower c1 =? 120) rest SawDigit
      else underscoreScan false s SawStart
  | _ => underscoreScan false s SawStart
  end.

(** [readFloat]: sign, base, mantissa digits, exponent of the base unit
    (ten, or two for a hexadecimal mantissa) and the unread text. *)
Definition readFloat (s : string) : option (bool * bool * Z * Z * string) :=
  match s with
  | EmptyString => None
  | String c rest =>
      let '(neg, s1) :=
        if byte c =? 43 then (false, rest)
        else if byte c =? 45 then (true, rest)
        else (false, s) in
      let '(hex, s2) :=
        match s1 with
        | String c0 (String c1 (String c2 rest2)) =>
            if (byte c0 =? 48) && (lower c1 =? 120)
            then (true, String c2 rest2) else (false, s1)
        | _ => (false, s1)
        end in
      let '(m, s3) := readMantissa hex s2
                        {| digits := 0; nfrac := 0; sawdot := false; sawdigits := false |} in
      if sawdigits m then
        match readExponent hex s3 with
        | Some (e, s4) =>
            Some (neg, hex, digits m,
                  if hex then e - 4 * nfrac m else e - nfrac m, s4)
        | None => None
        end
      else None
  end.

(** The binary64 nearest to [num/den], ties to even. *)
Definition roundRatio (neg : bool) (num den : Z) : float64 :=
  let '(q, e, l) := SFdiv_core_binary prec emax num 0 den 0 in
  binary_round_aux prec emax neg q e l.

(** The binary64 nearest to [m * base^e]. *)
Definition roundScaled (neg hex : bool) (m e : Z) : float64 :=
  match m with
  | Z.pos p =>
      if hex then binary_round prec emax neg p e
      else if 0 <=? e then
        match m * 10 ^ e with
        | Z.pos q => binary_round prec emax neg q 0
        | _ => S754_zero neg
        end
      else roundRatio neg m (10 ^ (- e))
  | _ => S754_zero neg
  end.

(** [ParseFloat(s, 64)]: [None] stands for a returned error, either of
    syntax or of range (the nearest binary64 would be an infinity). *)
Definition ParseFloat (s : string) : option float64 :=
  match special s with
  | Some (f, n) => if Nat.eqb n (String.length s) then Some f else None
  | None =>
      match readFloat s with
      | Some (neg, hex, m, e, rest) =>
          if String.eqb rest "" && underscoreOK s then
            match roundScaled neg hex m e with
            | S754_infinity _ => None
            | f => Some f
            end
          else None
      | None => None
      end
  end.

End Strconv.

Module Fmt.

(** [a/b] rounded to the nearest integer, ties to even ([0 < b]). *)
Definition roundHalfEven (a b : Z) : Z :=
  let q := a / b in
  let r := a mod b in
  if 2 * r <? b then q
  else if b <? 2 * r then q + 1
  else if Z.even q then q else q + 1.

(** Four decimal digits, zero-padded. *)
Definition pad4 (k : Z) : string :=
  let t := itoa k in
  match String.length t with
  | 1%nat => "000" +:+ t
  | 2%nat => "00" +:+ t
  | 3%nat => "0" +:+ t
  | _ => t
  end.

(** [fmt.Sprintf("%.4f", x)]. *)
Definition Sprintf_4f (x : float64) : string :=
  match x with
  | S754_nan => "NaN"
  | S754_infinity s => if s then "-Inf" else "+Inf"
  | S754_zero s => if s then "-0.0000" else "0.0000"
  | S754_finite s m e =>
      let n := if 0 <=? e then Z.pos m * 2 ^ e * 10000
               else roundHalfEven (Z.pos m * 10000) (2 ^ (- e)) in
      (if s then "-" else "") +:+ itoa (n / 10000) +:+ "." +:+ pad4 (n mod 10000)
  end.

End Fmt.

(** A concrete environment: the library models above, an upstream that
    answers the first outbound call with [pointsReply] and every later one
    with [forecastReply], and decoders that yield the given values. *)
Module Sample.

Definition env
    (pointsReply : string + ClientResponse.t)
    (pointsBody : string + PointsResponse.t)
    (forecastReply : string + ClientResponse.t)
    (forecastBody : string + ForecastResponse.t) : Env :=
  {| strconv_ParseFloat := Strconv.ParseFloat;
     fmt_Sprintf_4f := Fmt.Sprintf_4f;
     http_NewRequest_err := fun _ => None;
     http_Do := fun n _ => match n with O => pointsReply | _ => forecastReply end;
     json_Decode_points := fun _ => pointsBody;
     json_Decode_forecast := fun _ => forecastBody;
     time_Now_Format := "2025-06-08 17:56:00 EST";
     int_overflow := fun _ => min_int |}.

Definition ok (body : string) : string + ClientResponse.t :=
  inr {| ClientResponse.StatusCode := 200; ClientResponse.Body := body |}.

Definition forecastURL : string :=
  "https://api.weather.gov/gridpoints/OKX/33,35/forecast".

Definition points : string + PointsResponse.t :=
  inr {| PointsResponse.Forecast := forecastURL |}.

Definition period (name : string) (daytime : bool) (temperature : Z) (unit : string)
    : ForecastPeriod.t :=
  {| ForecastPeriod.Name := name;
     ForecastPeriod.IsDaytime := daytime;
     ForecastPeriod.Temperature := temperature;
     ForecastPeriod.TemperatureUnit := unit;
     ForecastPeriod.ShortForecast := "Partly Cloudy";
     ForecastPeriod.DetailedForecast := "Partly cloudy, with a high near 75." |}.

(** An upstream that serves the given period list. *)
Definition serving (periods : list ForecastPeriod.t) : Env :=
  env (ok "points") points (ok "forecast")
      (inr {| ForecastResponse.Periods := periods |}).

(** An upstream that is never reached in the runs it is used for. *)
Definition offline : Env :=
  env (inl "dial tcp: connection refused") (inl "EOF")
      (inl "dial tcp: connection refused") (inl "EOF").

Definition get (lat lon : string) : Request.t :=
  {| Request.Method := "GET";
     Request.Query := <["lat" := [lat]]> (<["lon" := [lon]]> ∅) |}.

End Sample.

(* ===================================================================== *)
(** * Vocabulary of the statements                                        *)
(* ===================================================================== *)

(** The outbound request both steps send: a GET with the identification
    header. *)
Definition clientGet (url : string) : ClientRequest.t :=
  Header_Set {| ClientRequest.Method := "GET";
                ClientRequest.URL := url;
                ClientRequest.Header := ∅ |} "User-Agent" UserAgent.

(** The request passed every check of the handler, with coordinates
    [lat], [lon]. *)
Definition validated (env : Env) (r : Request.t) (lat lon : float64) : Prop :=
  Request.Method r = MethodGet /\
  Values_Get (Request.Query r) "lat" <> "" /\
  Values_Get (Request.Query r) "lon" <> "" /\
  strconv_ParseFloat env (Values_Get (Request.Query r) "lat") = Some lat /\
  strconv_ParseFloat env (Values_Get (Request.Query r) "lon") = Some lon /\
  ltb lat (of_int (-90)) || gtb lat (of_int 90)
    || ltb lon (of_int (-180)) || gtb lon (of_int 180) = false.

(** Step 1 of the lookup goes through and names the forecast endpoint
    [url]. *)
Definition points_resolved (env : Env) (lat lon : float64) (url : string) : Prop :=
  http_NewRequest_err env (pointsURL env lat lon) = None /\
  exists resp p,
    http_Do env 0 (clientGet (pointsURL env lat lon)) = inr resp /\
    ClientResponse.StatusCode resp = StatusOK /\
    json_Decode_points env (ClientResponse.Body resp) = inr p /\
    PointsResponse.Forecast p = url /\
    url <> "".

(** Both steps go through and the upstream serves [periods]. *)
Definition forecast_periods (env : Env) (lat lon : float64)
    (periods : list ForecastPeriod.t) : Prop :=
  exists url,
    points_resolved env lat lon url /\
    http_NewRequest_err env url = None /\
    exists resp f,
      http_Do env 1 (clientGet url) = inr resp /\
      ClientResponse.StatusCode resp = StatusOK /\
      json_Decode_forecast env (ClientResponse.Body resp) = inr f /\
      ForecastResponse.Periods f = periods.

(** The ways the lookup goes wrong, at either step, and the error of the
    program that each one produces. *)
Inductive resolver_failure (env : Env) (lat lon : float64) : error -> Prop :=
| FailCreatePoints cause :
    http_NewRequest_err env (pointsURL env lat lon) = Some cause ->
    resolver_failure env lat lon (ErrCreatePointsRequest cause)
| FailFetchPoints cause :
    http_NewRequest_err env (pointsURL env lat lon) = None ->
    http_Do env 0 (clientGet (pointsURL env lat lon)) = inl cause ->
    resolver_failure env lat lon (ErrFetchPoints cause)
| FailPointsStatus resp :
    http_NewRequest_err env (pointsURL env lat lon) = None ->
    http_Do env 0 (clientGet (pointsURL env lat lon)) = inr resp ->
    ClientResponse.StatusCode resp <> StatusOK ->
    resolver_failure env lat lon (ErrPointsStatus (ClientResponse.StatusCode resp))
| FailDecodePoints resp cause :
    http_NewRequest_err env (pointsURL env lat lon) = None ->
    http_Do env 0 (clientGet (pointsURL env lat lon)) = inr resp ->
    ClientResponse.StatusCode resp = StatusOK ->
    json_Decode_points env (ClientResponse.Body resp) = inl cause ->
    resolver_failure env lat lon (ErrDecodePoints cause)
| FailNoForecastURL resp p :
    http_NewRequest_err env (pointsURL env lat lon) = None ->
    http_Do env 0 (clientGet (pointsURL env lat lon)) = inr resp ->
    ClientResponse.StatusCode resp = StatusOK ->
    json_Decode_points env (ClientResponse.Body resp) = inr p ->
    PointsResponse.Forecast p = "" ->
    resolver_failure env lat lon ErrNoForecastURL
| FailCreateForecast url cause :
    points_resolved env lat lon url ->
    http_NewRequest_err env url = Some cause ->
    resolver_failure env lat lon (ErrCreateForecastRequest cause)
| FailFetchForecast url cause :
    points_resolved env lat lon url ->
    http_NewRequest_err env url = None ->
    http_Do env 1 (clientGet url) = inl cause ->
    resolver_failure env lat lon (ErrFetchForecast cause)
| FailForecastStatus url resp :
    points_resolved env lat lon url ->
    http_NewRequest_err env url = None ->
    http_Do env 1 (clientGet url) = inr resp ->
    ClientResponse.StatusCode resp <> StatusOK ->
    resolver_failure env lat lon (ErrForecastStatus (ClientResponse.StatusCode resp))
| FailDecodeForecast url resp cause :
    points_resolved env lat lon url ->
    http_NewRequest_err env url = None ->
    http_Do env 1 (clientGet url) = inr resp ->
    ClientResponse.StatusCode resp = StatusOK ->
    json_Decode_forecast env (ClientResponse.Body resp) = inl cause ->
    resolver_failure env lat lon (ErrDecodeForecast cause)
| FailNoPeriods :
    forecast_periods env lat lon [] ->
    resolver_failure env lat lon ErrNoPeriods.

(** The one reply every failed lookup ends in. *)
Definition genericFailure : Reply.t :=
  sendError StatusInternalServerError "API error" "Could not get forecast".

(** The log line of a failed lookup. *)
Definition failureLog (e : error) : event :=
  LogPrintf ("Forecast error: " +:+ error_text e).

(** The check run over a range of Celsius values: the integer part of
    [fahrenheit t] is the quotient of [9*t + 160] by 5 rounded towards
    zero, and fits an [int]. *)
Definition truncates_at (t : Z) : bool :=
  match trunc (fahrenheit t) with
  | Some v => (v =? Z.quot (9 * t + 160) 5) && (min_int <=? v) && (v <=? max_int)
  | None => false
  end.

(** The reply of a lookup that returned [w]. *)
Definition forecastReply (w : WeatherResponse.t) : Reply.t :=
  {| Reply.Header := jsonHeader;
     Reply.StatusCode := StatusOK;
     Reply.Body := json_Encode w |}.

Definition is_LogPrintf (ev : event) : bool :=
  match ev with LogPrintf _ => true | _ => false end.

(** The buckets in their order: cold, moderate, hot. *)
Definition bucket_rank (tempType : string) : Z :=
  if String.eqb tempType "hot" then 2
  else if String.eqb tempType "moderate" then 1
  else 0.

(** The period matches the test of the scan. *)
Definition scanMatch (p : ForecastPeriod.t) : bool :=
  namedToday p || ForecastPeriod.IsDaytime p.

(** The classification of a Celsius reading as the response shows it. *)
Definition celsius_bucket (t : Z) : string :=
  if 33 <=? t then "hot"
  else if 17 <=? t then "moderate"
  else "cold".

(** The range test of the handler on coordinates [lat], [lon]. *)
Definition outOfRange (lat lon : float64) : bool :=
  ltb lat (of_int (-90)) || gtb lat (of_int 90)
  || ltb lon (of_int (-180)) || gtb lon (of_int 180).

(** The check run over a range of integers [n] against a bound [c]: the
    float64 comparison of [float64(n)] with [float64(c)] is the integer
    comparison. *)
Definition compares_at (c n : Z) : bool :=
  match SFcompare (of_int n) (of_int c) with
  | Some o =>
      match o, n ?= c with
      | Eq, Eq | Lt, Lt | Gt, Gt => true
      | _, _ => false
      end
  | None => false
  end.

(** [n] is an integer nearest to [num/5]. *)
Definition nearest_fifth (num n : Z) : Prop := 2 * Z.abs (5 * n - num) <= 5.

(* ===================================================================== *)
(** * Facts about binary64                                                *)
(* ===================================================================== *)

Module Float64Facts.


Lemma digits2_pos_size (p : positive) : digits2_pos p = Pos.size p.
Proof. induction p; simpl; congruence. Qed.

Lemma digits2_pos_bounds (p : positive) :
  2 ^ (Z.pos (digits2_pos p) - 1) <= Z.pos p < 2 ^ Z.pos (digits2_pos p).
Proof.
  induction p as [p IH | p IH | ]; simpl digits2_pos.
  - rewrite Pos2Z.inj_succ.
    replace (Z.succ (Z.pos (digits2_pos p)) - 1) with (Z.succ (Z.pos (digits2_pos p) - 1)) by lia.
    rewrite !Z.pow_succ_r by lia. lia.
  - rewrite Pos2Z.inj_succ.
    replace (Z.succ (Z.pos (digits2_pos p)) - 1) with (Z.succ (Z.pos (digits2_pos p) - 1)) by lia.
    rewrite !Z.pow_succ_r by lia. lia.
  - simpl. lia.
Qed.

Lemma shr_1_m (mrs : shr_record) :
  0 <= shr_m mrs -> shr_m (shr_1 mrs) = shr_m mrs / 2.
Proof.
  destruct mrs as [m r s]; cbn [shr_m]. intros Hm.
  destruct m as [ | [p | p | ] | p ]; cbn [shr_1 shr_m].
  - reflexivity.
  - apply Z.div_unique with (r := 1); lia.
  - apply Z.div_unique with (r := 0); lia.
  - reflexivity.
  - lia.
Qed.

Lemma pow2_double (n : positive) : 2 ^ Z.pos n * 2 ^ Z.pos n = 2 ^ Z.pos n~0.
Proof. rewrite <- Z.pow_add_r by lia. f_equal. lia. Qed.

Lemma iter_shr_1_m (n : positive) :
  forall mrs, 0 <= shr_m mrs ->
  shr_m (SpecFloat.iter_pos shr_1 n mrs) = shr_m mrs / 2 ^ Z.pos n.
Proof.
  assert (Hp : forall k, 0 < 2 ^ Z.pos k) by (intros k; apply Z.pow_pos_nonneg; lia).
  assert (Hnn : forall m k, 0 <= m -> 0 <= m / 2 ^ Z.pos k).
  { intros m k Hm. apply Z.div_pos; [ exact Hm | apply Hp ]. }
  induction n as [n IH | n IH | ]; intros mrs Hm; cbn [SpecFloat.iter_pos].
  - assert (H1 : 0 <= shr_m (shr_1 mrs)).
    { rewrite shr_1_m by exact Hm. apply Z.div_pos; lia. }
    rewrite IH by (rewrite IH by exact H1; apply Hnn; exact H1).
    rewrite IH by exact H1. rewrite shr_1_m by exact Hm.
    rewrite !Z.div_div by (pose proof (Hp n); nia).
    f_equal. rewrite <- ?Z.mul_assoc, pow2_double.
    change (Z.pos n~1) with (Z.succ (Z.pos n~0)). rewrite Z.pow_succ_r by lia. reflexivity.
  - rewrite IH by (rewrite IH by exact Hm; apply Hnn; exact Hm).
    rewrite IH by exact Hm.
    rewrite !Z.div_div by (pose proof (Hp n); nia).
    f_equal. apply pow2_double.
  - rewrite shr_1_m by exact Hm. reflexivity.
Qed.

Lemma shr_record_of_loc_m (m : Z) (l : location) :
  shr_m (shr_record_of_loc m l) = m.
Proof. destruct l as [ | [ | | ] ]; reflexivity. Qed.

Lemma fexp_unfold (x : Z) : fexp prec emax x = Z.max (x - 53) (-1074).
Proof. reflexivity. Qed.

(** Shifting a positive mantissa to its canonical exponent keeps it
    positive, provided the exponent is not below the smallest one. *)
Lemma shr_fexp_pos (q : positive) (e : Z) (l : location) :
  -1074 <= e ->
  0 < shr_m (fst (shr_fexp prec emax (Z.pos q) e l)) /\
  snd (shr_fexp prec emax (Z.pos q) e l)
    = Z.max e (fexp prec emax (Z.pos (digits2_pos q) + e)).
Proof.
  intros He. unfold shr_fexp, shr. cbn [Zdigits2].
  rewrite fexp_unfold.
  pose proof (digits2_pos_bounds q) as [Hlo _].
  set (d := Z.pos (digits2_pos q)) in *.
  destruct (Z.max (d + e - 53) (-1074) - e) as [ | n | n ] eqn:Hn; cbn [fst snd].
  - rewrite shr_record_of_loc_m. lia.
  - split; [ | lia ].
    rewrite iter_shr_1_m by (rewrite shr_record_of_loc_m; lia).
    rewrite shr_record_of_loc_m.
    assert (Hle : 2 ^ Z.pos n <= 2 ^ (d - 1)) by (apply Z.pow_le_mono_r; lia).
    assert (Hp : 0 < 2 ^ Z.pos n) by (apply Z.pow_pos_nonneg; lia).
    apply Z.div_str_pos. lia.
  - rewrite shr_record_of_loc_m. lia.
Qed.

Lemma round_nearest_even_ge (m : Z) (l : location) : m <= round_nearest_even m l.
Proof.
  destruct l as [ | [ | | ] ]; cbn [round_nearest_even]; try lia.
  destruct (Z.even m); lia.
Qed.

(** Rounding a positive mantissa never yields a zero or a NaN, and the
    exponent of the result is at least the canonical one. *)
Lemma binary_round_aux_pos (sx : bool) (q : positive) (ex : Z) :
  -1074 <= ex ->
  binary_round_aux prec emax sx (Z.pos q) ex loc_Exact = S754_infinity sx \/
  exists m e,
    binary_round_aux prec emax sx (Z.pos q) ex loc_Exact = S754_finite sx m e /\
    Z.pos (digits2_pos q) + ex - 53 <= e.
Proof.
  intros He. unfold binary_round_aux.
  pose proof (shr_fexp_pos q ex loc_Exact He) as [Hm1 He1].
  destruct (shr_fexp prec emax (Z.pos q) ex loc_Exact) as [mrs1 e1].
  cbn [fst snd] in Hm1, He1.
  pose proof (round_nearest_even_ge (shr_m mrs1) (loc_of_shr_record mrs1)) as Hr.
  destruct (round_nearest_even (shr_m mrs1) (loc_of_shr_record mrs1))
    as [ | r | r ]; try lia.
  assert (He1' : -1074 <= e1) by lia.
  pose proof (shr_fexp_pos r e1 loc_Exact He1') as [Hm2 He2].
  destruct (shr_fexp prec emax (Z.pos r) e1 loc_Exact) as [mrs2 e2].
  cbn [fst snd] in Hm2, He2.
  destruct (shr_m mrs2) as [ | m | m ]; try lia.
  destruct (e2 <=? emax - prec).
  - right. exists m, e2. split; [ reflexivity | ].
    rewrite fexp_unfold in He1. lia.
  - left. reflexivity.
Qed.

Lemma binary_round_shape (sx : bool) (p : positive) :
  binary_round prec emax sx p 0 = S754_infinity sx \/
  exists m e,
    binary_round prec emax sx p 0 = S754_finite sx m e /\
    Z.pos (digits2_pos p) - 53 <= e.
Proof.
  unfold binary_round, shl_align. rewrite fexp_unfold.
  set (d := Z.pos (digits2_pos p)).
  assert (Hd : 0 < d) by (unfold d; lia).
  destruct (Z.max (d + 0 - 53) (-1074) - 0) as [ | k | k ] eqn:Hk.
  - destruct (binary_round_aux_pos sx p 0) as [H | (m & e & H & Hle)];
      [ lia | left; exact H | right; exists m, e; split; [ exact H | fold d in Hle; lia ] ].
  - destruct (binary_round_aux_pos sx p 0) as [H | (m & e & H & Hle)];
      [ lia | left; exact H | right; exists m, e; split; [ exact H | fold d in Hle; lia ] ].
  - set (ez := Z.max (d + 0 - 53) (-1074)) in *.
    destruct (binary_round_aux_pos sx (Pos.iter xO p k) ez) as [H | (m & e & H & Hle)];
      [ lia | left; exact H | right; exists m, e; split; [ exact H | ] ].
    assert (Hdig : Z.pos (digits2_pos (Pos.iter xO p k)) = Z.pos (digits2_pos p) + Z.pos k).
    { clear. induction k using Pos.peano_ind.
      - simpl. lia.
      - rewrite Pos.iter_succ. simpl digits2_pos. lia. }
    fold d in Hdig. lia.
Qed.

Lemma check_from_sound (n : nat) (f : Z -> bool) :
  forall lo, check_from lo n f = true ->
  forall t, lo <= t < lo + Z.of_nat n -> f t = true.
Proof.
  induction n as [ | k IH ]; intros lo Hc t Ht.
  - lia.
  - cbn [check_from] in Hc. apply andb_prop in Hc as [Hk Hrest].
    destruct (Z.eq_dec t lo) as [-> | Hne].
    + exact Hk.
    + apply (IH (lo + 1)); [ exact Hrest | lia ].
Qed.

Lemma of_int_pos_shape (p : positive) :
  of_int (Z.pos p) = S754_infinity false \/
  exists m e, of_int (Z.pos p) = S754_finite false m e /\
              Z.pos (digits2_pos p) - 53 <= e.
Proof. apply binary_round_shape. Qed.

Lemma of_int_neg_shape (p : positive) :
  of_int (Z.neg p) = S754_infinity true \/
  exists m e, of_int (Z.neg p) = S754_finite true m e /\
              Z.pos (digits2_pos p) - 53 <= e.
Proof. apply binary_round_shape. Qed.

Lemma hot_bound_eq : hot_bound = S754_finite false 6298002603900928 (-46).
Proof. vm_compute. reflexivity. Qed.

Lemma moderate_bound_eq : moderate_bound = S754_finite false 8556839292003942 (-47).
Proof. vm_compute. reflexivity. Qed.

Lemma getTempType_of_int_small :
  check_from 0 128 (fun t => String.eqb (getTempType (of_int t)) (int_bucket t)) = true.
Proof. vm_compute. reflexivity. Qed.

(** On the image of the integers the classifier is the integer bucketing. *)
Lemma getTempType_of_int (t : Z) : getTempType (of_int t) = int_bucket t.
Proof.
  destruct (Z_lt_le_dec t 128) as [Hlt | Hge].
  - destruct t as [ | p | p ].
    + vm_compute. reflexivity.
    + apply String.eqb_eq.
      apply (check_from_sound 128 _ 0 getTempType_of_int_small). lia.
    + assert (Hb : int_bucket (Z.neg p) = "cold").
      { unfold int_bucket.
        destruct (Z.leb_spec 90 (Z.neg p)); [ lia | ].
        destruct (Z.leb_spec 61 (Z.neg p)); [ lia | reflexivity ]. }
      rewrite Hb. unfold getTempType, geb, SFleb.
      rewrite hot_bound_eq, moderate_bound_eq.
      destruct (of_int_neg_shape p) as [-> | (m & e & -> & _)]; reflexivity.
  - assert (Hb : int_bucket t = "hot").
    { unfold int_bucket. destruct (Z.leb_spec 90 t); [ reflexivity | lia ]. }
    rewrite Hb. destruct t as [ | p | p ]; try lia.
    assert (Hd : 8 <= Z.pos (digits2_pos p)).
    { pose proof (digits2_pos_bounds p) as [_ Hhi].
      destruct (Z_lt_le_dec (Z.pos (digits2_pos p)) 8) as [Hs | Hs]; [ | exact Hs ].
      assert (2 ^ Z.pos (digits2_pos p) <= 2 ^ 7) by (apply Z.pow_le_mono_r; lia).
      change (2 ^ 7) with 128 in *. lia. }
    unfold getTempType, geb, SFleb. rewrite hot_bound_eq.
    destruct (of_int_pos_shape p) as [-> | (m & e & -> & He)]; [ reflexivity | ].
    cbn [SFcompare].
    destruct (Z.compare_spec (-46) e) as [Heq | Hlt | Hgt]; try lia.
    reflexivity.
Qed.

End Float64Facts.

Module CompareFacts.

(** Swapping the operands of a comparison reverses its outcome. *)
Lemma SFcompare_swap (x y : float64) :
  SFcompare y x = option_map CompOpp (SFcompare x y).
Proof.
  destruct x as [sx | sx | | sx mx ex], y as [sy | sy | | sy my ey];
    cbn [SFcompare option_map];
    try (destruct sx); try (destruct sy); try reflexivity.
  - rewrite (Z.compare_antisym ex ey).
    destruct (ex ?= ey); cbn [CompOpp]; try reflexivity.
    rewrite CompOpp_involutive. f_equal.
    exact (Pos.compare_cont_antisym my mx Eq).
  - rewrite (Z.compare_antisym ex ey).
    destruct (ex ?= ey); cbn [CompOpp]; try reflexivity.
    f_equal. symmetry. exact (Pos.compare_cont_antisym mx my Eq).
Qed.

Lemma ltb_geb_false (x y : float64) : ltb x y = true -> geb x y = false.
Proof.
  unfold ltb, geb, SFltb, SFleb. rewrite (SFcompare_swap x y).
  destruct (SFcompare x y) as [ [ | | ] | ]; cbn; congruence.
Qed.

Lemma leb_gtb_false (x y : float64) : leb x y = true -> gtb x y = false.
Proof.
  unfold leb, gtb, SFltb, SFleb. rewrite (SFcompare_swap x y).
  destruct (SFcompare x y) as [ [ | | ] | ]; cbn; congruence.
Qed.

Lemma geb_ltb_false (x y : float64) : geb x y = true -> ltb x y = false.
Proof.
  unfold ltb, geb, SFltb, SFleb. rewrite (SFcompare_swap x y).
  destruct (SFcompare x y) as [ [ | | ] | ]; cbn; congruence.
Qed.

(** A NaN is neither below nor above anything. *)
Lemma nan_ltb (y : float64) : ltb S754_nan y = false /\ gtb S754_nan y = false.
Proof. destruct y; split; reflexivity. Qed.

End CompareFacts.

(* ===================================================================== *)
(** * Facts about the resolver                                            *)
(* ===================================================================== *)

Module ResolverFacts.

Lemma scanPeriods_cons (i : nat) (p : ForecastPeriod.t) (rest : list ForecastPeriod.t) :
  scanPeriods i (p :: rest) None =
  if namedToday p || ForecastPeriod.IsDaytime p
  then Some (i, p) else scanPeriods (S i) rest None.
Proof. reflexivity. Qed.

(** A list without a match leaves the pointer of the scan as it was. *)
Lemma scanPeriods_no_match (periods : list ForecastPeriod.t) :
  Forall (fun p => namedToday p = false /\ ForecastPeriod.IsDaytime p = false) periods ->
  forall i, scanPeriods i periods None = None.
Proof.
  induction 1 as [ | p rest [Hn Hd] _ IH ]; intros i.
  - reflexivity.
  - rewrite scanPeriods_cons, Hn, Hd. apply IH.
Qed.

(** The scan returns an element of the list together with its index. *)
Lemma scanPeriods_lookup (periods : list ForecastPeriod.t) :
  forall i j p, scanPeriods i periods None = Some (j, p) ->
  (i <= j)%nat /\ periods !! (j - i)%nat = Some p.
Proof.
  induction periods as [ | q rest IH ]; intros i j p H.
  - discriminate.
  - rewrite scanPeriods_cons in H.
    destruct (namedToday q || ForecastPeriod.IsDaytime q).
    + injection H as <- <-. split; [ lia | ].
      replace (i - i)%nat with 0%nat by lia. reflexivity.
    + apply IH in H as [Hle Hl]. split; [ lia | ].
      replace (j - i)%nat with (S (j - S i)) by lia. exact Hl.
Qed.

Lemma selectPeriod_nil : selectPeriod [] = None.
Proof. reflexivity. Qed.

(** Only the empty list leaves nothing selected. *)
Lemma selectPeriod_cons (p : ForecastPeriod.t) (rest : list ForecastPeriod.t) :
  exists i q, selectPeriod (p :: rest) = Some (i, q).
Proof.
  unfold selectPeriod.
  destruct (scanPeriods 0 (p :: rest) None) as [ [i q] | ] eqn:Hs.
  - exists i, q. reflexivity.
  - exists 0%nat, p. reflexivity.
Qed.

Ltac run :=
  unfold GetForecast, fetchForecast, Do, emit, wrap, NewRequest, fail;
  unfold mbind, M_bind, mret, M_ret; cbn.

(** What [GetForecast] does when both upstream steps go through. *)
Lemma GetForecast_periods (env : Env) (lat lon : float64)
    (periods : list ForecastPeriod.t) :
  forecast_periods env lat lon periods ->
  exists url,
    GetForecast env lat lon [] =
    (match selectPeriod periods with
     | None => inl ErrNoPeriods
     | Some (_, p) => inr (buildResponse env p lat lon)
     end,
     [CallGetForecast lat lon; HttpDo (clientGet (pointsURL env lat lon));
      HttpDo (clientGet url)]).
Proof.
  intros (url & (Hreq1 & resp1 & p1 & Hdo1 & Hst1 & Hdec1 & Hurl & Hne) &
          Hreq2 & resp2 & f & Hdo2 & Hst2 & Hdec2 & Hper).
  exists url. run.
  rewrite Hreq1. cbn. fold (clientGet (pointsURL env lat lon)).
  rewrite Hdo1. cbn. rewrite Hst1. cbn. rewrite Hdec1. cbn.
  rewrite Hurl. apply String.eqb_neq in Hne. rewrite Hne. cbn.
  rewrite Hreq2. cbn. fold (clientGet url).
  rewrite Hdo2. cbn. rewrite Hst2. cbn. rewrite Hdec2. cbn.
  rewrite Hper. destruct (selectPeriod periods) as [ [i p] | ]; reflexivity.
Qed.

(** Every run of [GetForecast] is one of the failures listed in
    [resolver_failure], or a response built from a period the upstream
    served. *)
Lemma GetForecast_cases (env : Env) (lat lon : float64) :
  (exists e, resolver_failure env lat lon e /\
             fst (GetForecast env lat lon []) = inl e) \/
  (exists periods i p,
     forecast_periods env lat lon periods /\
     selectPeriod periods = Some (i, p) /\
     fst (GetForecast env lat lon []) = inr (buildResponse env p lat lon)).
Proof.
  destruct (http_NewRequest_err env (pointsURL env lat lon)) as [cause | ] eqn:Hreq1.
  { left. eexists. split; [ apply FailCreatePoints; exact Hreq1 | ].
    run. rewrite Hreq1. reflexivity. }
  destruct (http_Do env 0 (clientGet (pointsURL env lat lon))) as [cause | resp1] eqn:Hdo1.
  { left. eexists. split; [ apply FailFetchPoints; eassumption | ].
    run. rewrite Hreq1. cbn. fold (clientGet (pointsURL env lat lon)).
    rewrite Hdo1. reflexivity. }
  destruct (ClientResponse.StatusCode resp1 =? StatusOK) eqn:Hst1.
  2:{ left. eexists. split.
      - eapply FailPointsStatus; [ eassumption .. | ]. apply Z.eqb_neq. exact Hst1.
      - run. rewrite Hreq1. cbn. fold (clientGet (pointsURL env lat lon)).
        rewrite Hdo1. cbn. rewrite Hst1. reflexivity. }
  destruct (json_Decode_points env (ClientResponse.Body resp1)) as [cause | p1] eqn:Hdec1.
  { left. eexists. split.
    - eapply FailDecodePoints; [ eassumption .. | | eassumption ].
      apply Z.eqb_eq. exact Hst1.
    - run. rewrite Hreq1. cbn. fold (clientGet (pointsURL env lat lon)).
      rewrite Hdo1. cbn. rewrite Hst1. cbn. rewrite Hdec1. reflexivity. }
  destruct (String.eqb (PointsResponse.Forecast p1) "") eqn:Hurl.
  { left. eexists. split.
    - eapply FailNoForecastURL; [ eassumption .. | | eassumption | ].
      + apply Z.eqb_eq. exact Hst1.
      + apply String.eqb_eq. exact Hurl.
    - run. rewrite Hreq1. cbn. fold (clientGet (pointsURL env lat lon)).
      rewrite Hdo1. cbn. rewrite Hst1. cbn. rewrite Hdec1. cbn.
      rewrite Hurl. reflexivity. }
  set (url := PointsResponse.Forecast p1) in *.
  assert (Hres : points_resolved env lat lon url).
  { split; [ exact Hreq1 | ]. exists resp1, p1.
    split; [ exact Hdo1 | ]. split; [ apply Z.eqb_eq; exact Hst1 | ].
    split; [ exact Hdec1 | ]. split; [ reflexivity | ].
    apply String.eqb_neq. exact Hurl. }
  assert (Hrun : GetForecast env lat lon [] =
                 fetchForecast env url lat lon
                   [CallGetForecast lat lon; HttpDo (clientGet (pointsURL env lat lon))]).
  { unfold GetForecast, Do, emit, wrap, NewRequest, fail.
    unfold mbind, M_bind, mret, M_ret. cbn.
    rewrite Hreq1. cbn. fold (clientGet (pointsURL env lat lon)).
    rewrite Hdo1. cbn. rewrite Hst1. cbn. rewrite Hdec1. cbn.
    fold url. rewrite Hurl. reflexivity. }
  rewrite Hrun. clear Hrun.
  destruct (http_NewRequest_err env url) as [cause | ] eqn:Hreq2.
  { left. eexists. split; [ eapply FailCreateForecast; eassumption | ].
    unfold fetchForecast, Do, wrap, NewRequest, fail, mbind, M_bind, mret, M_ret. cbn.
    rewrite Hreq2. reflexivity. }
  destruct (http_Do env 1 (clientGet url)) as [cause | resp2] eqn:Hdo2.
  { left. eexists. split; [ eapply FailFetchForecast; eassumption | ].
    unfold fetchForecast, Do, wrap, NewRequest, fail, mbind, M_bind, mret, M_ret. cbn.
    rewrite Hreq2. cbn. fold (clientGet url). rewrite Hdo2. reflexivity. }
  destruct (ClientResponse.StatusCode resp2 =? StatusOK) eqn:Hst2.
  2:{ left. eexists. split.
      - eapply FailForecastStatus; [ eassumption .. | ]. apply Z.eqb_neq. exact Hst2.
      - unfold fetchForecast, Do, wrap, NewRequest, fail, mbind, M_bind, mret, M_ret. cbn.
        rewrite Hreq2. cbn. fold (clientGet url). rewrite Hdo2. cbn.
        rewrite Hst2. reflexivity. }
  destruct (json_Decode_forecast env (ClientResponse.Body resp2)) as [cause | f] eqn:Hdec2.
  { left. eexists. split.
    - eapply FailDecodeForecast; [ eassumption .. | | eassumption ].
      apply Z.eqb_eq. exact Hst2.
    - unfold fetchForecast, Do, wrap, NewRequest, fail, mbind, M_bind, mret, M_ret. cbn.
      rewrite Hreq2. cbn. fold (clientGet url). rewrite Hdo2. cbn.
      rewrite Hst2. cbn. rewrite Hdec2. reflexivity. }
  assert (Hper : forecast_periods env lat lon (ForecastResponse.Periods f)).
  { exists url. split; [ exact Hres | ]. split; [ exact Hreq2 | ].
    exists resp2, f. split; [ exact Hdo2 | ]. split; [ apply Z.eqb_eq; exact Hst2 | ].
    split; [ exact Hdec2 | reflexivity ]. }
  assert (Hrun : fst (fetchForecast env url lat lon
                   [CallGetForecast lat lon; HttpDo (clientGet (pointsURL env lat lon))])
                 = match selectPeriod (ForecastResponse.Periods f) with
                   | None => inl ErrNoPeriods
                   | Some (_, p) => inr (buildResponse env p lat lon)
                   end).
  { unfold fetchForecast, Do, wrap, NewRequest, fail, mbind, M_bind, mret, M_ret. cbn.
    rewrite Hreq2. cbn. fold (clientGet url). rewrite Hdo2. cbn.
    rewrite Hst2. cbn. rewrite Hdec2. cbn.
    destruct (selectPeriod (ForecastResponse.Periods f)) as [ [i p] | ]; reflexivity. }
  rewrite Hrun. clear Hrun.
  destruct (selectPeriod (ForecastResponse.Periods f)) as [ [i p] | ] eqn:Hsel.
  - right. exists (ForecastResponse.Periods f), i, p. auto.
  - left. exists ErrNoPeriods. split; [ | reflexivity ].
    apply FailNoPeriods.
    destruct (ForecastResponse.Periods f) as [ | q rest ] eqn:Hl; [ exact Hper | ].
    destruct (selectPeriod_cons q rest) as (i & p & Hs). congruence.
Qed.

Ltac step1 env lat lon Hreq1 Hdo1 Hst1 Hdec1 Hurl Hne :=
  run; rewrite Hreq1; cbn; fold (clientGet (pointsURL env lat lon));
  rewrite Hdo1; cbn; rewrite Hst1; cbn; rewrite Hdec1; cbn;
  rewrite Hurl; rewrite (proj2 (String.eqb_neq _ _) Hne); cbn.

(** Each listed failure makes [GetForecast] return its error. *)
Lemma GetForecast_failure (env : Env) (lat lon : float64) (e : error) :
  resolver_failure env lat lon e ->
  fst (GetForecast env lat lon []) = inl e.
Proof.
  intros [ cause Hreq1 | cause Hreq1 Hdo1 | resp Hreq1 Hdo1 Hst1
         | resp cause Hreq1 Hdo1 Hst1 Hdec1 | resp p Hreq1 Hdo1 Hst1 Hdec1 Hurl
         | url cause Hres Hreq2 | url cause Hres Hreq2 Hdo2
         | url resp Hres Hreq2 Hdo2 Hst2 | url resp cause Hres Hreq2 Hdo2 Hst2 Hdec2
         | Hper ].
  - run. rewrite Hreq1. reflexivity.
  - run. rewrite Hreq1. cbn. fold (clientGet (pointsURL env lat lon)).
    rewrite Hdo1. reflexivity.
  - run. rewrite Hreq1. cbn. fold (clientGet (pointsURL env lat lon)).
    rewrite Hdo1. cbn. apply Z.eqb_neq in Hst1. rewrite Hst1. reflexivity.
  - run. rewrite Hreq1. cbn. fold (clientGet (pointsURL env lat lon)).
    rewrite Hdo1. cbn. rewrite Hst1. cbn. rewrite Hdec1. reflexivity.
  - run. rewrite Hreq1. cbn. fold (clientGet (pointsURL env lat lon)).
    rewrite Hdo1. cbn. rewrite Hst1. cbn. rewrite Hdec1. cbn. rewrite Hurl. reflexivity.
  - destruct Hres as (Hreq1 & resp1 & p1 & Hdo1 & Hst1 & Hdec1 & Hurl & Hne).
    step1 env lat lon Hreq1 Hdo1 Hst1 Hdec1 Hurl Hne. rewrite Hreq2. reflexivity.
  - destruct Hres as (Hreq1 & resp1 & p1 & Hdo1 & Hst1 & Hdec1 & Hurl & Hne).
    step1 env lat lon Hreq1 Hdo1 Hst1 Hdec1 Hurl Hne. rewrite Hreq2. cbn. fold (clientGet url).
    rewrite Hdo2. reflexivity.
  - destruct Hres as (Hreq1 & resp1 & p1 & Hdo1 & Hst1 & Hdec1 & Hurl & Hne).
    step1 env lat lon Hreq1 Hdo1 Hst1 Hdec1 Hurl Hne. rewrite Hreq2. cbn. fold (clientGet url).
    rewrite Hdo2. cbn. apply Z.eqb_neq in Hst2. rewrite Hst2. reflexivity.
  - destruct Hres as (Hreq1 & resp1 & p1 & Hdo1 & Hst1 & Hdec1 & Hurl & Hne).
    step1 env lat lon Hreq1 Hdo1 Hst1 Hdec1 Hurl Hne. rewrite Hreq2. cbn. fold (clientGet url).
    rewrite Hdo2. cbn. rewrite Hst2. cbn. rewrite Hdec2. reflexivity.
  - destruct (GetForecast_periods env lat lon [] Hper) as (url & ->). reflexivity.
Qed.

(** The trace of a run starts with the mark of the call and holds no log
    line: [GetForecast] itself never logs. *)
Lemma GetForecast_trace (env : Env) (lat lon : float64) :
  exists rest,
    snd (GetForecast env lat lon []) = CallGetForecast lat lon :: rest /\
    Forall (fun ev => exists req, ev = HttpDo req) rest.
Proof.
  run.
  destruct (http_NewRequest_err env (pointsURL env lat lon)); cbn.
  { eexists. split; [ reflexivity | constructor ]. }
  destruct (http_Do env 0 _); cbn.
  { eexists. split; [ reflexivity | repeat constructor; eexists; reflexivity ]. }
  destruct (ClientResponse.StatusCode t =? StatusOK); cbn.
  2:{ eexists. split; [ reflexivity | repeat constructor; eexists; reflexivity ]. }
  destruct (json_Decode_points env _); cbn.
  { eexists. split; [ reflexivity | repeat constructor; eexists; reflexivity ]. }
  destruct (String.eqb (PointsResponse.Forecast t0) ""); cbn.
  { eexists. split; [ reflexivity | repeat constructor; eexists; reflexivity ]. }
  destruct (http_NewRequest_err env _); cbn.
  { eexists. split; [ reflexivity | repeat constructor; eexists; reflexivity ]. }
  destruct (http_Do env 1 _); cbn.
  { eexists. split; [ reflexivity | repeat constructor; eexists; reflexivity ]. }
  destruct (ClientResponse.StatusCode t1 =? StatusOK); cbn.
  2:{ eexists. split; [ reflexivity | repeat constructor; eexists; reflexivity ]. }
  destruct (json_Decode_forecast env _); cbn.
  { eexists. split; [ reflexivity | repeat constructor; eexists; reflexivity ]. }
  destruct (selectPeriod _) as [ [i p] | ]; cbn;
    eexists; (split; [ reflexivity | repeat constructor; eexists; reflexivity ]).
Qed.

End ResolverFacts.

(* ===================================================================== *)
(** * Facts about the handler                                             *)
(* ===================================================================== *)

Module HandlerFacts.

(** A key that is absent from the query reads as the empty string. *)
Lemma Values_Get_absent (v : gmap string (list string)) (key : string) :
  v !! key = None -> Values_Get v key = "".
Proof. unfold Values_Get. intros ->. reflexivity. Qed.

(** Past the method check, an empty coordinate ends the request. *)
Lemma ServeHTTP_missing (env : Env) (r : Request.t) :
  Request.Method r = MethodGet ->
  Values_Get (Request.Query r) "lat" = "" \/ Values_Get (Request.Query r) "lon" = "" ->
  ServeHTTP env r =
  (sendError StatusBadRequest "Missing coords" "Need both lat and lon params", []).
Proof.
  intros Hm H. unfold ServeHTTP. rewrite Hm. cbn [negb String.eqb].
  rewrite String.eqb_refl. cbn [negb].
  destruct H as [-> | ->].
  - reflexivity.
  - rewrite orb_true_r. reflexivity.
Qed.

(** The handler up to the two parses. *)
Lemma ServeHTTP_parsed (env : Env) (r : Request.t) :
  Request.Method r = MethodGet ->
  Values_Get (Request.Query r) "lat" <> "" ->
  Values_Get (Request.Query r) "lon" <> "" ->
  ServeHTTP env r =
  match strconv_ParseFloat env (Values_Get (Request.Query r) "lat") with
  | None => (sendError StatusBadRequest "Bad latitude" "Must be a number", [])
  | Some lat =>
      match strconv_ParseFloat env (Values_Get (Request.Query r) "lon") with
      | None => (sendError StatusBadRequest "Bad longitude" "Must be a number", [])
      | Some lon =>
          if ltb lat (of_int (-90)) || gtb lat (of_int 90)
             || ltb lon (of_int (-180)) || gtb lon (of_int 180)
          then (sendError StatusBadRequest "Invalid coords"
                  "Check your lat/lon values", [])
          else
            match GetForecast env lat lon [] with
            | (inl err, tr) => (genericFailure, tr ++ [failureLog err])
            | (inr forecast, tr) =>
                ({| Reply.Header := jsonHeader;
                    Reply.StatusCode := StatusOK;
                    Reply.Body := json_Encode forecast |}, tr)
            end
      end
  end.
Proof.
  intros Hm Hlat Hlon. unfold ServeHTTP. rewrite Hm, String.eqb_refl. cbn [negb].
  apply String.eqb_neq in Hlat. apply String.eqb_neq in Hlon.
  rewrite Hlat, Hlon. reflexivity.
Qed.

(** A request that passed every check is answered by the resolver. *)
Lemma ServeHTTP_validated (env : Env) (r : Request.t) (lat lon : float64) :
  validated env r lat lon ->
  ServeHTTP env r =
  match GetForecast env lat lon [] with
  | (inl err, tr) => (genericFailure, tr ++ [failureLog err])
  | (inr forecast, tr) =>
      ({| Reply.Header := jsonHeader;
          Reply.StatusCode := StatusOK;
          Reply.Body := json_Encode forecast |}, tr)
  end.
Proof.
  intros (Hm & Hlat & Hlon & Hplat & Hplon & Hrange).
  rewrite (ServeHTTP_parsed env r Hm Hlat Hlon), Hplat, Hplon, Hrange. reflexivity.
Qed.

(** A failed lookup ends in the one generic reply, and the error text goes
    to the log. *)
Lemma ServeHTTP_failure (env : Env) (r : Request.t) (lat lon : float64) (e : error) :
  validated env r lat lon ->
  fst (GetForecast env lat lon []) = inl e ->
  ServeHTTP env r =
  (genericFailure, snd (GetForecast env lat lon []) ++ [failureLog e]).
Proof.
  intros Hv He. rewrite (ServeHTTP_validated env r lat lon Hv).
  destruct (GetForecast env lat lon []) as [ [e' | w] tr ]; cbn in He |- *.
  - congruence.
  - discriminate.
Qed.

(** The encoder writes the forecast it was given, or nothing. *)
Lemma json_Encode_weather (forecast w : WeatherResponse.t) :
  json_Encode forecast = WeatherPayload w ->
  forecast = w /\
  is_finite (Location.Lat (WeatherResponse.Location w)) = true /\
  is_finite (Location.Lng (WeatherResponse.Location w)) = true.
Proof.
  unfold json_Encode.
  destruct (is_finite (Location.Lat (WeatherResponse.Location forecast))) eqn:Hlat;
    destruct (is_finite (Location.Lng (WeatherResponse.Location forecast))) eqn:Hlng;
    cbn [andb]; intros H; try discriminate H.
  injection H as <-. auto.
Qed.

Lemma json_Encode_not_error (forecast : WeatherResponse.t) (e : ErrorResponse.t) :
  json_Encode forecast <> ErrorPayload e.
Proof.
  unfold json_Encode.
  destruct (is_finite _ && is_finite _); discriminate.
Qed.

(** Every reply of the handler that carries a forecast was built by
    [buildResponse] from some period. *)
Lemma ServeHTTP_weather (env : Env) (r : Request.t) (w : WeatherResponse.t) :
  Reply.Body (fst (ServeHTTP env r)) = WeatherPayload w ->
  exists p lat lon, w = buildResponse env p lat lon.
Proof.
  unfold ServeHTTP.
  destruct (negb (String.eqb (Request.Method r) MethodGet)); [ discriminate | ].
  destruct (String.eqb (Values_Get (Request.Query r) "lat") "" ||
            String.eqb (Values_Get (Request.Query r) "lon") ""); [ discriminate | ].
  destruct (strconv_ParseFloat env (Values_Get (Request.Query r) "lat")) as [lat | ];
    [ | discriminate ].
  destruct (strconv_ParseFloat env (Values_Get (Request.Query r) "lon")) as [lon | ];
    [ | discriminate ].
  destruct (ltb lat (of_int (-90)) || gtb lat (of_int 90)
            || ltb lon (of_int (-180)) || gtb lon (of_int 180)); [ discriminate | ].
  destruct (ResolverFacts.GetForecast_cases env lat lon)
    as [ (e & _ & He) | (periods & i & p & _ & _ & Hw) ];
    destruct (GetForecast env lat lon []) as [ [e' | w'] tr ];
    cbn [fst snd Reply.Body sendError] in *; try discriminate.
  intros H. apply json_Encode_weather in H as [<- _].
  exists p, lat, lon. congruence.
Qed.

End HandlerFacts.

(* ===================================================================== *)
(** * Temperature: classification and unit normalisation                  *)
(* ===================================================================== *)

Module TemperatureFacts.

Import Float64Facts CompareFacts.

(** A value below a positive number of exponent -47 is not above one of
    exponent -46. *)
Lemma ltb_geb_exponents (m1 m2 : positive) (temp : float64) :
  ltb temp (S754_finite false m1 (-47)) = true ->
  geb temp (S754_finite false m2 (-46)) = false.
Proof.
  unfold ltb, geb, SFltb, SFleb.
  destruct temp as [s | s | | s m e]; try (destruct s); cbn [SFcompare];
    try congruence.
  destruct (Z.compare_spec e (-47)) as [-> | Hlt | Hgt]; try congruence.
  - intros _. reflexivity.
  - intros _. destruct (Z.compare_spec (-46) e); first [ lia | reflexivity ].
Qed.

(** Below the moderate bound is below the hot bound. *)
Lemma below_moderate_not_hot (temp : float64) :
  ltb temp moderate_bound = true -> geb temp hot_bound = false.
Proof. rewrite hot_bound_eq, moderate_bound_eq. apply ltb_geb_exponents. Qed.

Lemma celsius_range : check_from (-1000) 2001 truncates_at = true.
Proof. vm_compute. reflexivity. Qed.

(** Between -1000 and 1000 degrees Celsius the conversion is the exact
    value [(9*t + 160)/5] with its fraction dropped. *)
Lemma to_int_fahrenheit (overflow : float64 -> Z) (t : Z) :
  -1000 <= t <= 1000 ->
  to_int overflow (fahrenheit t) = Z.quot (9 * t + 160) 5.
Proof.
  intros Ht.
  assert (H : truncates_at t = true).
  { apply (check_from_sound 2001 _ (-1000) celsius_range). lia. }
  unfold truncates_at in H. unfold to_int.
  destruct (trunc (fahrenheit t)) as [v | ]; [ | discriminate ].
  apply andb_prop in H as [H Hhi]. apply andb_prop in H as [Hv Hlo].
  rewrite Hlo, Hhi. cbn. apply Z.eqb_eq. exact Hv.
Qed.

Lemma normalizeTemperature_other (env : Env) (p : ForecastPeriod.t) :
  ForecastPeriod.TemperatureUnit p <> "C" ->
  normalizeTemperature env p = ForecastPeriod.Temperature p.
Proof.
  intros H. unfold normalizeTemperature.
  apply String.eqb_neq in H. rewrite H. reflexivity.
Qed.

Lemma normalizeTemperature_celsius (env : Env) (p : ForecastPeriod.t) :
  ForecastPeriod.TemperatureUnit p = "C" ->
  normalizeTemperature env p =
  to_int (int_overflow env) (fahrenheit (ForecastPeriod.Temperature p)).
Proof. intros H. unfold normalizeTemperature. rewrite H. reflexivity. Qed.

Lemma int_bucket_hot (t : Z) : int_bucket t = "hot" <-> 90 <= t.
Proof.
  unfold int_bucket.
  destruct (Z.leb_spec 90 t); [ | destruct (Z.leb_spec 61 t) ];
    split; intros; try reflexivity; try lia; discriminate.
Qed.

Lemma int_bucket_moderate (t : Z) : int_bucket t = "moderate" <-> 61 <= t <= 89.
Proof.
  unfold int_bucket.
  destruct (Z.leb_spec 90 t); [ | destruct (Z.leb_spec 61 t) ];
    split; intros; try reflexivity; try lia; discriminate.
Qed.

Lemma int_bucket_cold (t : Z) : int_bucket t = "cold" <-> t <= 60.
Proof.
  unfold int_bucket.
  destruct (Z.leb_spec 90 t); [ | destruct (Z.leb_spec 61 t) ];
    split; intros; try reflexivity; try lia; discriminate.
Qed.

End TemperatureFacts.

(* ===================================================================== *)
(** * The classifier and the unit normalisation                           *)
(* ===================================================================== *)

(** C4: the classifier returns one of the three buckets on every float64
    (NaN and the infinities included): "hot" when [temp >= 89.5],
    "moderate" when [60.8 <= temp < 89.5] and "cold" when [temp < 60.8],
    the comparisons and the two constants being those of float64; the
    boundary values 89.5, 89.4999, 60.8 and 60.7999 fall on the documented
    side. *)
Theorem C4_getTempType_buckets (temp : float64) :
  (geb temp (const 895 10) = true -> getTempType temp = "hot") /\
  (geb temp (const 608 10) = true -> ltb temp (const 895 10) = true ->
   getTempType temp = "moderate") /\
  (ltb temp (const 608 10) = true -> getTempType temp = "cold") /\
  (getTempType temp = "hot" \/ getTempType temp = "moderate" \/
   getTempType temp = "cold") /\
  getTempType (const 895 10) = "hot" /\
  getTempType (const 894999 10000) = "moderate" /\
  getTempType (const 608 10) = "moderate" /\
  getTempType (const 607999 10000) = "cold".
Proof.
  fold hot_bound moderate_bound. unfold getTempType.
  split; [ | split; [ | split; [ | split ] ] ].
  - intros ->. reflexivity.
  - intros Hm Hlt. apply CompareFacts.ltb_geb_false in Hlt.
    rewrite Hlt, Hm. reflexivity.
  - intros Hlt.
    rewrite (TemperatureFacts.below_moderate_not_hot temp Hlt).
    rewrite (CompareFacts.ltb_geb_false _ _ Hlt). reflexivity.
  - destruct (geb temp hot_bound); [ auto | ].
    destruct (geb temp moderate_bound); auto.
  - repeat split; vm_compute; reflexivity.
Qed.

Lemma C4_getTempType_buckets_witness :
  getTempType (of_int 95) = "hot" /\
  getTempType (of_int 75) = "moderate" /\
  getTempType (of_int 20) = "cold".
Proof.
  split; [ | split ].
  - apply (proj1 (C4_getTempType_buckets (of_int 95))). vm_compute. reflexivity.
  - apply (proj1 (proj2 (C4_getTempType_buckets (of_int 75)))); vm_compute; reflexivity.
  - apply (proj1 (proj2 (proj2 (C4_getTempType_buckets (of_int 20))))).
    vm_compute. reflexivity.
Defined.

(** C9: every forecast the handler returns carries the classification of
    its own integer [temp_f]: "hot" exactly from 90 up, "moderate" exactly
    from 61 to 89, "cold" exactly up to 60. *)
Theorem C9_integer_boundaries (env : Env) (r : Request.t) (w : WeatherResponse.t) :
  Reply.Body (fst (ServeHTTP env r)) = WeatherPayload w ->
  WeatherResponse.TempType w = getTempType (of_int (WeatherResponse.Temp w)) /\
  WeatherResponse.TempType w = int_bucket (WeatherResponse.Temp w) /\
  (WeatherResponse.TempType w = "hot" <-> 90 <= WeatherResponse.Temp w) /\
  (WeatherResponse.TempType w = "moderate" <-> 61 <= WeatherResponse.Temp w <= 89) /\
  (WeatherResponse.TempType w = "cold" <-> WeatherResponse.Temp w <= 60).
Proof.
  intros H. apply HandlerFacts.ServeHTTP_weather in H as (p & lat & lon & ->).
  cbn [buildResponse WeatherResponse.TempType WeatherResponse.Temp].
  rewrite Float64Facts.getTempType_of_int.
  split; [ reflexivity | ]. split; [ reflexivity | ].
  split; [ apply TemperatureFacts.int_bucket_hot | ].
  split; [ apply TemperatureFacts.int_bucket_moderate
         | apply TemperatureFacts.int_bucket_cold ].
Qed.

Lemma C9_integer_boundaries_witness :
  let env := Sample.serving [Sample.period "Today" true 75 "F"] in
  let w := buildResponse env (Sample.period "Today" true 75 "F")
             (const 407128 10000) (of_int (-74)) in
  WeatherResponse.TempType w = int_bucket (WeatherResponse.Temp w).
Proof.
  intros env w.
  assert (H : Reply.Body (fst (ServeHTTP env (Sample.get "40.7128" "-74")))
              = WeatherPayload w) by (vm_compute; reflexivity).
  exact (proj1 (proj2 (C9_integer_boundaries env (Sample.get "40.7128" "-74") w H))).
Defined.

(** C10: the conversion is taken only for the unit text "C"; with any
    other unit the period's temperature is the response's [temp_f] as it
    stands, and the lookup that selected the period returns its forecast. *)
Theorem C10_only_exact_C_converts (env : Env) (p : ForecastPeriod.t)
    (lat lon : float64) (periods : list ForecastPeriod.t) (i : nat) :
  ForecastPeriod.TemperatureUnit p <> "C" ->
  normalizeTemperature env p = ForecastPeriod.Temperature p /\
  WeatherResponse.Temp (buildResponse env p lat lon) = ForecastPeriod.Temperature p /\
  (forecast_periods env lat lon periods ->
   selectPeriod periods = Some (i, p) ->
   exists w, fst (GetForecast env lat lon []) = inr w /\
             WeatherResponse.Temp w = ForecastPeriod.Temperature p).
Proof.
  intros Hu.
  pose proof (TemperatureFacts.normalizeTemperature_other env p Hu) as Hn.
  split; [ exact Hn | ]. split; [ exact Hn | ].
  intros Hper Hsel.
  destruct (ResolverFacts.GetForecast_periods env lat lon periods Hper) as (url & Hrun).
  rewrite Hrun, Hsel. cbn [fst].
  exists (buildResponse env p lat lon). split; [ reflexivity | exact Hn ].
Qed.

Lemma C10_only_exact_C_converts_witness :
  normalizeTemperature Sample.offline (Sample.period "Today" true 20 "c") = 20 /\
  normalizeTemperature Sample.offline (Sample.period "Today" true 20 "celsius") = 20 /\
  normalizeTemperature Sample.offline (Sample.period "Today" true 20 "") = 20.
Proof.
  split; [ | split ].
  - apply (C10_only_exact_C_converts Sample.offline (Sample.period "Today" true 20 "c")
             (of_int 0) (of_int 0) [] 0%nat). discriminate.
  - apply (C10_only_exact_C_converts Sample.offline
             (Sample.period "Today" true 20 "celsius") (of_int 0) (of_int 0) [] 0%nat).
    discriminate.
  - apply (C10_only_exact_C_converts Sample.offline (Sample.period "Today" true 20 "")
             (of_int 0) (of_int 0) [] 0%nat). discriminate.
Defined.

(** C2, as the code has it: for the unit "C" and a temperature [t]
    between -1000 and 1000 the response carries [t * 9/5 + 32] with its
    fraction dropped (rounded towards zero, not to the nearest integer);
    20 gives 68, classified moderate; with any other unit the temperature
    is used unchanged. *)
Theorem C2_celsius_fraction_dropped (env : Env) (p : ForecastPeriod.t)
    (lat lon : float64) :
  (ForecastPeriod.TemperatureUnit p = "C" ->
   -1000 <= ForecastPeriod.Temperature p <= 1000 ->
   WeatherResponse.Temp (buildResponse env p lat lon)
   = Z.quot (9 * ForecastPeriod.Temperature p + 160) 5) /\
  (ForecastPeriod.TemperatureUnit p = "C" ->
   ForecastPeriod.Temperature p = 20 ->
   WeatherResponse.Temp (buildResponse env p lat lon) = 68 /\
   WeatherResponse.TempType (buildResponse env p lat lon) = "moderate") /\
  (ForecastPeriod.TemperatureUnit p <> "C" ->
   WeatherResponse.Temp (buildResponse env p lat lon) = ForecastPeriod.Temperature p).
Proof.
  cbn [buildResponse WeatherResponse.Temp WeatherResponse.TempType].
  split; [ | split ].
  - intros Hu Ht. rewrite (TemperatureFacts.normalizeTemperature_celsius env p Hu).
    apply TemperatureFacts.to_int_fahrenheit. exact Ht.
  - intros Hu Ht. rewrite (TemperatureFacts.normalizeTemperature_celsius env p Hu).
    rewrite TemperatureFacts.to_int_fahrenheit by lia.
    rewrite Ht. split; vm_compute; reflexivity.
  - apply TemperatureFacts.normalizeTemperature_other.
Qed.

Lemma C2_celsius_fraction_dropped_witness :
  WeatherResponse.Temp
    (buildResponse Sample.offline (Sample.period "Today" true 21 "C")
       (of_int 0) (of_int 0)) = 69.
Proof.
  apply (proj1 (C2_celsius_fraction_dropped Sample.offline
                  (Sample.period "Today" true 21 "C") (of_int 0) (of_int 0))).
  - reflexivity.
  - cbn. lia.
Defined.

(** C2 as stated fails at 21 degrees Celsius: 21 * 9/5 + 32 is 69.8, whose
    nearest integer is 70, and the response carries 69. *)
Lemma C2_celsius_21_is_not_rounded :
  normalizeTemperature Sample.offline (Sample.period "Today" true 21 "C") = 69 /\
  nearest_fifth (9 * 21 + 160) 70 /\
  ~ nearest_fifth (9 * 21 + 160) 69.
Proof.
  split; [ vm_compute; reflexivity | ].
  unfold nearest_fifth. split; lia.
Qed.

(* ===================================================================== *)
(** * The sample environment                                              *)
(* ===================================================================== *)

Module SampleFacts.

(** The serving upstream serves its list, whatever the coordinates. *)
Lemma serving_periods (periods : list ForecastPeriod.t) (lat lon : float64) :
  forecast_periods (Sample.serving periods) lat lon periods.
Proof.
  exists Sample.forecastURL. split.
  - split; [ reflexivity | ].
    eexists _, _. repeat (split; [ reflexivity | ]). discriminate.
  - split; [ reflexivity | ]. eexists _, _. repeat split; reflexivity.
Qed.

Ltac validate :=
  unfold validated; repeat split;
  first [ discriminate | vm_compute; reflexivity | vm_compute; discriminate ].

End SampleFacts.

(* ===================================================================== *)
(** * Period selection                                                    *)
(* ===================================================================== *)

(** C1, on the input where the code departs from it: a daytime period
    ahead of the period named "Today" ends the scan, and the daytime period
    is the one selected. *)
Theorem C1_earlier_daytime_period_selected :
  let afternoon := Sample.period "This Afternoon" true 75 "F" in
  let today := Sample.period "Today" true 80 "F" in
  namedToday afternoon = false /\
  namedToday today = true /\
  selectPeriod [afternoon; today] = Some (0%nat, afternoon) /\
  fst (GetForecast (Sample.serving [afternoon; today]) (of_int 40) (of_int (-74)) [])
  = inr (buildResponse (Sample.serving [afternoon; today]) afternoon
           (of_int 40) (of_int (-74))).
Proof. repeat split; vm_compute; reflexivity. Qed.

(** C7: when no period is named today and none is daytime, the first
    element of a non-empty list is selected and the lookup returns the
    response built from it; an empty list makes the lookup fail with
    "no forecast periods available", which the caller of a valid request
    sees as the generic failure and the log records. *)
Theorem C7_first_period_or_no_forecast (env : Env) (r : Request.t)
    (lat lon : float64) (periods : list ForecastPeriod.t) :
  Forall (fun p => namedToday p = false /\ ForecastPeriod.IsDaytime p = false) periods ->
  selectPeriod periods = (fun p => (0%nat, p)) <$> head periods /\
  (forecast_periods env lat lon periods ->
   match periods with
   | [] =>
       fst (GetForecast env lat lon []) = inl ErrNoPeriods /\
       (validated env r lat lon ->
        ServeHTTP env r =
        (genericFailure, snd (GetForecast env lat lon []) ++ [failureLog ErrNoPeriods]))
   | p :: _ =>
       fst (GetForecast env lat lon []) = inr (buildResponse env p lat lon)
   end).
Proof.
  intros Hnone.
  assert (Hsel : selectPeriod periods = (fun p => (0%nat, p)) <$> head periods).
  { unfold selectPeriod.
    rewrite (ResolverFacts.scanPeriods_no_match periods Hnone 0%nat).
    destruct periods; reflexivity. }
  split; [ exact Hsel | ].
  intros Hper.
  destruct (ResolverFacts.GetForecast_periods env lat lon periods Hper) as (url & Hrun).
  rewrite Hsel in Hrun.
  destruct periods as [ | p rest ]; cbn in Hrun.
  - assert (He : fst (GetForecast env lat lon []) = inl ErrNoPeriods)
      by (rewrite Hrun; reflexivity).
    split; [ exact He | ].
    intros Hv. apply (HandlerFacts.ServeHTTP_failure env r lat lon ErrNoPeriods Hv He).
  - rewrite Hrun. reflexivity.
Qed.

Lemma C7_first_period_or_no_forecast_witness :
  selectPeriod [Sample.period "Tonight" false 55 "F"; Sample.period "Overnight" false 50 "F"]
  = Some (0%nat, Sample.period "Tonight" false 55 "F") /\
  fst (GetForecast (Sample.serving [Sample.period "Tonight" false 55 "F"])
         (of_int 40) (of_int (-74)) [])
  = inr (buildResponse (Sample.serving [Sample.period "Tonight" false 55 "F"])
           (Sample.period "Tonight" false 55 "F") (of_int 40) (of_int (-74))) /\
  fst (ServeHTTP (Sample.serving []) (Sample.get "40.7128" "-74.0060")) = genericFailure.
Proof.
  split; [ | split ].
  - apply (C7_first_period_or_no_forecast Sample.offline (Sample.get "0" "0")
             (of_int 0) (of_int 0)).
    repeat constructor.
  - apply (proj2 (C7_first_period_or_no_forecast
                    (Sample.serving [Sample.period "Tonight" false 55 "F"])
                    (Sample.get "40" "-74") (of_int 40) (of_int (-74))
                    [Sample.period "Tonight" false 55 "F"]
                    ltac:(repeat constructor))
             (SampleFacts.serving_periods _ _ _)).
  - pose proof (proj2 (C7_first_period_or_no_forecast (Sample.serving [])
                         (Sample.get "40.7128" "-74.0060")
                         (const 407128 10000) (const (-740060) 10000) []
                         (List.Forall_nil _))
                  (SampleFacts.serving_periods [] _ _)) as H.
    cbv beta iota in H.
    rewrite (proj2 H ltac:(SampleFacts.validate)).
    reflexivity.
Defined.

(* ===================================================================== *)
(** * The request handler                                                 *)
(* ===================================================================== *)

(** C8: a GET request whose query lacks [lat] or lacks [lon] is answered
    400 "Missing coords", whatever the other parameter holds and whatever
    the parser or the upstream would do: nothing is parsed, nothing is
    called, nothing is logged. *)
Theorem C8_missing_coordinates (env : Env) (r : Request.t) :
  Request.Method r = MethodGet ->
  Request.Query r !! "lat" = None \/ Request.Query r !! "lon" = None ->
  ServeHTTP env r =
  (sendError StatusBadRequest "Missing coords" "Need both lat and lon params", []).
Proof.
  intros Hm H. apply HandlerFacts.ServeHTTP_missing; [ exact Hm | ].
  destruct H as [H | H]; [ left | right ]; apply HandlerFacts.Values_Get_absent; exact H.
Qed.

Lemma C8_missing_coordinates_witness :
  ServeHTTP (Sample.serving [Sample.period "Today" true 75 "F"])
    {| Request.Method := "GET"; Request.Query := <["lat" := ["40.7128"]]> ∅ |}
  = (sendError 400 "Missing coords" "Need both lat and lon params", []).
Proof.
  apply C8_missing_coordinates.
  - reflexivity.
  - right. vm_compute. reflexivity.
Defined.

(** C3, as the code has it: with both parameters present, a latitude that
    [strconv.ParseFloat] rejects is answered 400 "Bad latitude", and a
    longitude that it rejects, after a latitude that it accepts, 400
    "Bad longitude"; a parameter that parses to an infinity is answered
    400 "Invalid coords".  In each case nothing is called or logged. *)
Theorem C3_unparsable_coordinate (env : Env) (r : Request.t) :
  Request.Method r = MethodGet ->
  Values_Get (Request.Query r) "lat" <> "" ->
  Values_Get (Request.Query r) "lon" <> "" ->
  (strconv_ParseFloat env (Values_Get (Request.Query r) "lat") = None ->
   ServeHTTP env r = (sendError StatusBadRequest "Bad latitude" "Must be a number", [])) /\
  (forall lat,
     strconv_ParseFloat env (Values_Get (Request.Query r) "lat") = Some lat ->
     strconv_ParseFloat env (Values_Get (Request.Query r) "lon") = None ->
     ServeHTTP env r = (sendError StatusBadRequest "Bad longitude" "Must be a number", [])) /\
  (forall lat lon s,
     strconv_ParseFloat env (Values_Get (Request.Query r) "lat") = Some lat ->
     strconv_ParseFloat env (Values_Get (Request.Query r) "lon") = Some lon ->
     lat = S754_infinity s \/ lon = S754_infinity s ->
     ServeHTTP env r =
     (sendError StatusBadRequest "Invalid coords" "Check your lat/lon values", [])).
Proof.
  intros Hm Hlat Hlon.
  rewrite (HandlerFacts.ServeHTTP_parsed env r Hm Hlat Hlon).
  split; [ | split ].
  - intros ->. reflexivity.
  - intros lat -> ->. reflexivity.
  - intros lat lon s -> -> Hinf.
    assert (Hr : ltb lat (of_int (-90)) || gtb lat (of_int 90)
                 || ltb lon (of_int (-180)) || gtb lon (of_int 180) = true).
    { destruct Hinf as [-> | ->]; destruct s.
      - reflexivity.
      - change (gtb (S754_infinity false) (of_int 90)) with true.
        rewrite orb_true_r. reflexivity.
      - change (ltb (S754_infinity true) (of_int (-180))) with true.
        rewrite orb_true_r. reflexivity.
      - change (gtb (S754_infinity false) (of_int 180)) with true.
        rewrite orb_true_r. reflexivity. }
    rewrite Hr. reflexivity.
Qed.

Lemma C3_unparsable_coordinate_witness :
  ServeHTTP Sample.offline (Sample.get "invalid" "-74")
  = (sendError 400 "Bad latitude" "Must be a number", []) /\
  ServeHTTP Sample.offline (Sample.get "40.7" "west")
  = (sendError 400 "Bad longitude" "Must be a number", []).
Proof.
  split.
  - apply (C3_unparsable_coordinate Sample.offline (Sample.get "invalid" "-74"));
      first [ reflexivity | discriminate | vm_compute; discriminate ].
  - apply (proj1 (proj2 (C3_unparsable_coordinate Sample.offline (Sample.get "40.7" "west")
                           eq_refl
                           ltac:(vm_compute; discriminate)
                           ltac:(vm_compute; discriminate)))
             (const 407 10));
      vm_compute; reflexivity.
Defined.

(** C3 as stated fails for the text "Inf": it does not parse to a finite
    number, yet the reply is "Invalid coords", not "Bad latitude". *)
Lemma C3_infinity_is_not_bad_latitude :
  Strconv.ParseFloat "Inf" = Some (S754_infinity false) /\
  is_finite (S754_infinity false) = false /\
  ServeHTTP Sample.offline (Sample.get "Inf" "0")
  = (sendError 400 "Invalid coords" "Check your lat/lon values", []) /\
  fst (ServeHTTP Sample.offline (Sample.get "Inf" "0"))
  <> sendError 400 "Bad latitude" "Must be a number".
Proof.
  repeat split; try (vm_compute; reflexivity).
  vm_compute. discriminate.
Qed.

(** C5, on the input where the code departs from it: the text "NaN"
    parses to a latitude that is not inside -90..90, yet neither comparison
    of the range check holds for it; the request is not answered 400, the
    resolver is entered with the NaN latitude and an outbound call is
    made. *)
Theorem C5_nan_latitude_not_rejected :
  let env := Sample.serving [Sample.period "Today" true 75 "F"] in
  let r := Sample.get "NaN" "-74" in
  strconv_ParseFloat env (Values_Get (Request.Query r) "lat") = Some S754_nan /\
  leb (of_int (-90)) S754_nan && leb S754_nan (of_int 90) = false /\
  ltb S754_nan (of_int (-90)) || gtb S754_nan (of_int 90) = false /\
  fst (ServeHTTP env r) <> sendError 400 "Invalid coords" "Check your lat/lon values" /\
  Reply.StatusCode (fst (ServeHTTP env r)) = 200 /\
  snd (ServeHTTP env r) =
  [CallGetForecast S754_nan (of_int (-74));
   HttpDo (clientGet "https://api.weather.gov/points/NaN,-74.0000");
   HttpDo (clientGet Sample.forecastURL)].
Proof.
  repeat split; try (vm_compute; reflexivity).
  vm_compute. discriminate.
Qed.

(** X16: with both parameters parsed, a latitude that compares below -90
    or above 90, or a longitude that compares below -180 or above 180, is
    answered 400 "Invalid coords" and nothing is called or logged;
    coordinates that compare inside the bounds, the bounds themselves
    included, reach the resolver.  (A NaN compares neither way.) *)
Theorem ordered_range_check (env : Env) (r : Request.t) (lat lon : float64) :
  Request.Method r = MethodGet ->
  Values_Get (Request.Query r) "lat" <> "" ->
  Values_Get (Request.Query r) "lon" <> "" ->
  strconv_ParseFloat env (Values_Get (Request.Query r) "lat") = Some lat ->
  strconv_ParseFloat env (Values_Get (Request.Query r) "lon") = Some lon ->
  (ltb lat (of_int (-90)) = true \/ gtb lat (of_int 90) = true \/
   ltb lon (of_int (-180)) = true \/ gtb lon (of_int 180) = true ->
   ServeHTTP env r =
   (sendError StatusBadRequest "Invalid coords" "Check your lat/lon values", [])) /\
  (leb (of_int (-90)) lat = true -> leb lat (of_int 90) = true ->
   leb (of_int (-180)) lon = true -> leb lon (of_int 180) = true ->
   exists rest, snd (ServeHTTP env r) = CallGetForecast lat lon :: rest).
Proof.
  intros Hm Hlat Hlon Hplat Hplon.
  rewrite (HandlerFacts.ServeHTTP_parsed env r Hm Hlat Hlon), Hplat, Hplon.
  split.
  - intros H.
    assert (Hr : ltb lat (of_int (-90)) || gtb lat (of_int 90)
                 || ltb lon (of_int (-180)) || gtb lon (of_int 180) = true).
    { destruct H as [-> | [-> | [-> | ->] ] ]; rewrite ?orb_true_r; reflexivity. }
    rewrite Hr. reflexivity.
  - intros H1 H2 H3 H4.
    assert (Hr : ltb lat (of_int (-90)) || gtb lat (of_int 90)
                 || ltb lon (of_int (-180)) || gtb lon (of_int 180) = false).
    { rewrite (CompareFacts.geb_ltb_false lat (of_int (-90)) H1).
      rewrite (CompareFacts.leb_gtb_false lat (of_int 90) H2).
      rewrite (CompareFacts.geb_ltb_false lon (of_int (-180)) H3).
      rewrite (CompareFacts.leb_gtb_false lon (of_int 180) H4). reflexivity. }
    rewrite Hr.
    destruct (ResolverFacts.GetForecast_trace env lat lon) as (rest & Htr & _).
    destruct (GetForecast env lat lon []) as [ [e | w] tr ]; cbn [snd] in *; subst tr.
    + eexists. reflexivity.
    + eexists. reflexivity.
Qed.

Lemma ordered_range_check_witness :
  ServeHTTP Sample.offline (Sample.get "95" "-74")
  = (sendError 400 "Invalid coords" "Check your lat/lon values", []) /\
  exists rest,
    snd (ServeHTTP Sample.offline (Sample.get "90" "-180"))
    = CallGetForecast (of_int 90) (of_int (-180)) :: rest.
Proof.
  split.
  - apply (proj1 (ordered_range_check Sample.offline (Sample.get "95" "-74")
                    (of_int 95) (of_int (-74)) eq_refl
                    ltac:(vm_compute; discriminate) ltac:(vm_compute; discriminate)
                    ltac:(vm_compute; reflexivity) ltac:(vm_compute; reflexivity))).
    right. left. vm_compute. reflexivity.
  - apply (proj2 (ordered_range_check Sample.offline (Sample.get "90" "-180")
                    (of_int 90) (of_int (-180)) eq_refl
                    ltac:(vm_compute; discriminate) ltac:(vm_compute; discriminate)
                    ltac:(vm_compute; reflexivity) ltac:(vm_compute; reflexivity)));
      vm_compute; reflexivity.
Defined.

(** C6: whatever the failure of the lookup (request creation, transport,
    status, decoding or an empty period list, at either step), a valid
    request is answered by one and the same reply, 500 "API error" /
    "Could not get forecast"; the text of the error goes to the log, as the
    last line of the trace, and is no part of the reply. *)
Theorem C6_one_generic_failure (env : Env) (r : Request.t) (lat lon : float64)
    (e : error) :
  validated env r lat lon ->
  resolver_failure env lat lon e ->
  fst (ServeHTTP env r) =
  {| Reply.Header := jsonHeader;
     Reply.StatusCode := 500;
     Reply.Body := ErrorPayload {| ErrorResponse.Error := "API error";
                                   ErrorResponse.Message := "Could not get forecast" |} |} /\
  snd (ServeHTTP env r) =
  snd (GetForecast env lat lon []) ++ [LogPrintf ("Forecast error: " +:+ error_text e)].
Proof.
  intros Hv Hf.
  rewrite (HandlerFacts.ServeHTTP_failure env r lat lon e Hv
             (ResolverFacts.GetForecast_failure env lat lon e Hf)).
  split; reflexivity.
Qed.

Lemma C6_one_generic_failure_witness :
  fst (ServeHTTP Sample.offline (Sample.get "40.7128" "-74.0060")) = genericFailure /\
  fst (ServeHTTP (Sample.env (Sample.ok "points") Sample.points
                    (inr {| ClientResponse.StatusCode := 503; ClientResponse.Body := "" |})
                    (inl "EOF"))
         (Sample.get "40.7128" "-74.0060")) = genericFailure.
Proof.
  split.
  - apply (C6_one_generic_failure Sample.offline (Sample.get "40.7128" "-74.0060")
             (const 407128 10000) (const (-740060) 10000)
             (ErrFetchPoints "dial tcp: connection refused")).
    + SampleFacts.validate.
    + apply FailFetchPoints; reflexivity.
  - apply (C6_one_generic_failure _ (Sample.get "40.7128" "-74.0060")
             (const 407128 10000) (const (-740060) 10000) (ErrForecastStatus 503)).
    + SampleFacts.validate.
    + apply (FailForecastStatus _ _ _ Sample.forecastURL
               {| ClientResponse.StatusCode := 503; ClientResponse.Body := "" |}).
      * split; [ reflexivity | ].
        eexists _, _. repeat (split; [ reflexivity | ]). discriminate.
      * reflexivity.
      * reflexivity.
      * discriminate.
Defined.

(** X15: a latitude text that parses to a NaN fails neither comparison of the
    range check: with a longitude in range the request reaches the
    resolver. *)
Lemma nan_latitude_reaches_resolver (env : Env) (r : Request.t) (lon : float64) :
  Request.Method r = MethodGet ->
  Values_Get (Request.Query r) "lat" <> "" ->
  Values_Get (Request.Query r) "lon" <> "" ->
  strconv_ParseFloat env (Values_Get (Request.Query r) "lat") = Some S754_nan ->
  strconv_ParseFloat env (Values_Get (Request.Query r) "lon") = Some lon ->
  leb (of_int (-180)) lon = true -> leb lon (of_int 180) = true ->
  exists rest, snd (ServeHTTP env r) = CallGetForecast S754_nan lon :: rest.
Proof.
  intros Hm Hlat Hlon Hplat Hplon H3 H4.
  rewrite (HandlerFacts.ServeHTTP_parsed env r Hm Hlat Hlon), Hplat, Hplon.
  rewrite (CompareFacts.geb_ltb_false lon (of_int (-180)) H3).
  rewrite (CompareFacts.leb_gtb_false lon (of_int 180) H4).
  change (ltb S754_nan (of_int (-90))) with false.
  change (gtb S754_nan (of_int 90)) with false. cbn [orb].
  destruct (ResolverFacts.GetForecast_trace env S754_nan lon) as (rest & Htr & _).
  destruct (GetForecast env S754_nan lon []) as [ [e | w] tr ]; cbn [snd] in *; subst tr;
    eexists; reflexivity.
Qed.

Lemma nan_latitude_reaches_resolver_witness :
  exists rest,
    snd (ServeHTTP Sample.offline (Sample.get "NaN" "-74"))
    = CallGetForecast S754_nan (of_int (-74)) :: rest.
Proof.
  apply nan_latitude_reaches_resolver;
    first [ reflexivity | vm_compute; discriminate | vm_compute; reflexivity ].
Defined.

(* ===================================================================== *)
(** * Further properties of the handler                                   *)
(* ===================================================================== *)

(** Every run of the handler ends in one of seven ways. *)
Lemma ServeHTTP_cases (env : Env) (r : Request.t) :
  (Request.Method r <> MethodGet /\
   ServeHTTP env r =
   (sendError StatusMethodNotAllowed "Method not allowed" "Only GET supported", [])) \/
  (Request.Method r = MethodGet /\
   (Values_Get (Request.Query r) "lat" = "" \/ Values_Get (Request.Query r) "lon" = "") /\
   ServeHTTP env r =
   (sendError StatusBadRequest "Missing coords" "Need both lat and lon params", [])) \/
  (Request.Method r = MethodGet /\
   Values_Get (Request.Query r) "lat" <> "" /\
   Values_Get (Request.Query r) "lon" <> "" /\
   ((strconv_ParseFloat env (Values_Get (Request.Query r) "lat") = None /\
     ServeHTTP env r = (sendError StatusBadRequest "Bad latitude" "Must be a number", [])) \/
    (exists lat,
       strconv_ParseFloat env (Values_Get (Request.Query r) "lat") = Some lat /\
       strconv_ParseFloat env (Values_Get (Request.Query r) "lon") = None /\
       ServeHTTP env r = (sendError StatusBadRequest "Bad longitude" "Must be a number", [])) \/
    (exists lat lon,
       strconv_ParseFloat env (Values_Get (Request.Query r) "lat") = Some lat /\
       strconv_ParseFloat env (Values_Get (Request.Query r) "lon") = Some lon /\
       ltb lat (of_int (-90)) || gtb lat (of_int 90)
         || ltb lon (of_int (-180)) || gtb lon (of_int 180) = true /\
       ServeHTTP env r =
       (sendError StatusBadRequest "Invalid coords" "Check your lat/lon values", [])))) \/
  (exists lat lon e,
     validated env r lat lon /\ resolver_failure env lat lon e /\
     ServeHTTP env r =
     (genericFailure, snd (GetForecast env lat lon []) ++ [failureLog e])) \/
  (exists lat lon periods i p,
     validated env r lat lon /\ forecast_periods env lat lon periods /\
     selectPeriod periods = Some (i, p) /\
     ServeHTTP env r =
     (forecastReply (buildResponse env p lat lon), snd (GetForecast env lat lon []))).
Proof.
  destruct (String.eqb (Request.Method r) MethodGet) eqn:Hm.
  2:{ left. split; [ apply String.eqb_neq; exact Hm | ].
      unfold ServeHTTP. rewrite Hm. reflexivity. }
  apply String.eqb_eq in Hm. right.
  destruct (String.eqb (Values_Get (Request.Query r) "lat") "") eqn:Hlat.
  { left. apply String.eqb_eq in Hlat. split; [ exact Hm | ]. split; [ left; exact Hlat | ].
    apply HandlerFacts.ServeHTTP_missing; [ exact Hm | left; exact Hlat ]. }
  destruct (String.eqb (Values_Get (Request.Query r) "lon") "") eqn:Hlon.
  { left. apply String.eqb_eq in Hlon. split; [ exact Hm | ]. split; [ right; exact Hlon | ].
    apply HandlerFacts.ServeHTTP_missing; [ exact Hm | right; exact Hlon ]. }
  apply String.eqb_neq in Hlat. apply String.eqb_neq in Hlon. right.
  pose proof (HandlerFacts.ServeHTTP_parsed env r Hm Hlat Hlon) as Hrun.
  destruct (strconv_ParseFloat env (Values_Get (Request.Query r) "lat")) as [lat | ] eqn:Hplat.
  2:{ left. repeat (split; [ assumption | ]). left. split; [ reflexivity | exact Hrun ]. }
  destruct (strconv_ParseFloat env (Values_Get (Request.Query r) "lon")) as [lon | ] eqn:Hplon.
  2:{ left. repeat (split; [ assumption | ]). right. left.
      exists lat. repeat split; assumption. }
  destruct (ltb lat (of_int (-90)) || gtb lat (of_int 90)
            || ltb lon (of_int (-180)) || gtb lon (of_int 180)) eqn:Hrange.
  { left. repeat (split; [ assumption | ]). right. right.
    exists lat, lon. repeat split; assumption. }
  right.
  assert (Hv : validated env r lat lon) by (repeat split; assumption).
  destruct (ResolverFacts.GetForecast_cases env lat lon)
    as [ (e & Hf & He) | (periods & i & p & Hper & Hsel & Hw) ].
  - left. exists lat, lon, e. split; [ exact Hv | ]. split; [ exact Hf | ].
    apply (HandlerFacts.ServeHTTP_failure env r lat lon e Hv He).
  - right. exists lat, lon, periods, i, p.
    split; [ exact Hv | ]. split; [ exact Hper | ]. split; [ exact Hsel | ].
    rewrite Hrun.
    destruct (GetForecast env lat lon []) as [ [e | w] tr ]; cbn [fst snd] in *.
    + discriminate.
    + injection Hw as ->. reflexivity.
Qed.

(** X1: the reply always carries the JSON content type and one of four
    status codes; it is 405 exactly for a method other than GET; its body
    is an error payload exactly when the status is not 200; a 200 carries
    the forecast, or nothing at all when a coordinate is not finite and the
    JSON encoder refuses it. *)
Theorem reply_status_and_header (env : Env) (r : Request.t) :
  Reply.Header (fst (ServeHTTP env r)) = jsonHeader /\
  In (Reply.StatusCode (fst (ServeHTTP env r))) [200; 400; 405; 500] /\
  (Reply.StatusCode (fst (ServeHTTP env r)) = 405 <-> Request.Method r <> "GET") /\
  (Reply.StatusCode (fst (ServeHTTP env r)) <> 200 <->
   exists e, Reply.Body (fst (ServeHTTP env r)) = ErrorPayload e) /\
  (Reply.Body (fst (ServeHTTP env r)) = NoPayload ->
   Reply.StatusCode (fst (ServeHTTP env r)) = 200 /\
   exists lat lon, validated env r lat lon /\ is_finite lat && is_finite lon = false).
Proof.
  destruct (ServeHTTP_cases env r)
    as [ (Hm & ->) | [ (Hm & _ & ->) | [ (Hm & _ & _ & Hbad) | [ H | H ] ] ] ].
  - unfold MethodGet in *. cbn.
    repeat split; auto; try discriminate; try (eexists; reflexivity).
  - unfold MethodGet in *. cbn.
    repeat split; auto; try discriminate; try congruence; try (eexists; reflexivity).
  - unfold MethodGet in *.
    destruct Hbad as [ (_ & ->) | [ (lat & _ & _ & ->) | (lat & lon & _ & _ & _ & ->) ] ];
      cbn; repeat split; auto; try discriminate; try congruence;
      try (eexists; reflexivity).
  - destruct H as (lat & lon & e & (Hm & _) & _ & ->).
    unfold MethodGet in *. cbn.
    repeat split; auto; try discriminate; try congruence; try (eexists; reflexivity).
  - destruct H as (lat & lon & periods & i & p & Hv & _ & _ & ->).
    pose proof Hv as (Hm & _).
    unfold MethodGet in *. cbn [fst forecastReply Reply.Header Reply.StatusCode Reply.Body].
    split; [ reflexivity | ]. split; [ cbn; auto | ].
    split; [ split; [ discriminate | congruence ] | ].
    split.
    + split; [ intros Hne; exfalso; apply Hne; reflexivity | ].
      intros (e & He). exfalso. exact (HandlerFacts.json_Encode_not_error _ _ He).
    + intros Hno. split; [ reflexivity | ].
      exists lat, lon. split; [ exact Hv | ].
      unfold json_Encode in Hno. cbn [buildResponse WeatherResponse.Location
                                      Location.Lat Location.Lng] in Hno.
      destruct (is_finite lat && is_finite lon); [ discriminate Hno | reflexivity ].
Qed.

(** X2: a GET request is answered "Missing coords" exactly when the first
    value of [lat] or of [lon] is empty: a parameter that is absent, one
    with an empty list of values and one given as [lat=] are treated
    alike. *)
Theorem missing_coords_iff_empty_value (env : Env) (r : Request.t) :
  Request.Method r = "GET" ->
  (fst (ServeHTTP env r) = sendError 400 "Missing coords" "Need both lat and lon params"
   <-> Values_Get (Request.Query r) "lat" = "" \/ Values_Get (Request.Query r) "lon" = "").
Proof.
  intros Hm. split.
  - destruct (ServeHTTP_cases env r)
      as [ (Hne & _) | [ (_ & He & _) | [ (_ & _ & _ & Hbad) | [ H | H ] ] ] ].
    + contradiction.
    + intros _. exact He.
    + destruct Hbad as [ (_ & ->) | [ (lat & _ & _ & ->) | (lat & lon & _ & _ & _ & ->) ] ];
        cbn; intros H; discriminate H.
    + destruct H as (lat & lon & e & _ & _ & ->). cbn. intros H. discriminate H.
    + destruct H as (lat & lon & periods & i & p & _ & _ & _ & ->).
      cbn. intros H. discriminate H.
  - intros H. rewrite (HandlerFacts.ServeHTTP_missing env r Hm H). reflexivity.
Qed.

Lemma missing_coords_iff_empty_value_witness :
  fst (ServeHTTP Sample.offline (Sample.get "" "-74"))
  = sendError 400 "Missing coords" "Need both lat and lon params" /\
  fst (ServeHTTP Sample.offline
         {| Request.Method := "GET";
            Request.Query := <["lat" := []]> (<["lon" := ["-74"]]> ∅) |})
  = sendError 400 "Missing coords" "Need both lat and lon params".
Proof.
  split.
  - apply (proj2 (missing_coords_iff_empty_value Sample.offline
                    (Sample.get "" "-74") eq_refl)).
    left. vm_compute. reflexivity.
  - apply (proj2 (missing_coords_iff_empty_value Sample.offline
                    {| Request.Method := "GET";
                       Request.Query := <["lat" := []]> (<["lon" := ["-74"]]> ∅) |}
                    eq_refl)).
    left. vm_compute. reflexivity.
Defined.

(** X3: the handler succeeds exactly when the request passes every check and
    both upstream steps go through with a non-empty period list. *)
Theorem success_iff_validated_and_served (env : Env) (r : Request.t) :
  Reply.StatusCode (fst (ServeHTTP env r)) = 200 <->
  exists lat lon periods,
    validated env r lat lon /\ forecast_periods env lat lon periods /\ periods <> [].
Proof.
  split.
  - destruct (ServeHTTP_cases env r)
      as [ (_ & ->) | [ (_ & _ & ->) | [ (_ & _ & _ & Hbad) | [ H | H ] ] ] ];
      try (cbn; discriminate).
    + destruct Hbad as [ (_ & ->) | [ (lat & _ & _ & ->) | (lat & lon & _ & _ & _ & ->) ] ];
        cbn; discriminate.
    + destruct H as (lat & lon & e & _ & _ & ->). cbn. discriminate.
    + destruct H as (lat & lon & periods & i & p & Hv & Hper & Hsel & _).
      intros _. exists lat, lon, periods. split; [ exact Hv | ]. split; [ exact Hper | ].
      intros ->. discriminate Hsel.
  - intros (lat & lon & periods & Hv & Hper & Hne).
    rewrite (HandlerFacts.ServeHTTP_validated env r lat lon Hv).
    destruct (ResolverFacts.GetForecast_periods env lat lon periods Hper) as (url & ->).
    destruct periods as [ | q rest ]; [ contradiction | ].
    destruct (ResolverFacts.selectPeriod_cons q rest) as (i & p & ->). reflexivity.
Qed.

Lemma success_iff_validated_and_served_witness :
  Reply.StatusCode
    (fst (ServeHTTP (Sample.serving [Sample.period "Tonight" false 55 "F"])
            (Sample.get "40.7128" "-74.0060"))) = 200.
Proof.
  apply (proj2 (success_iff_validated_and_served _ _)).
  exists (const 407128 10000), (const (-740060) 10000),
         [Sample.period "Tonight" false 55 "F"].
  split; [ SampleFacts.validate | ].
  split; [ apply SampleFacts.serving_periods | discriminate ].
Defined.

(** X4: a forecast reply echoes the coordinates of the request and carries
    the two texts of a period that the upstream served, the temperature of
    that period after unit normalisation and the clock reading. *)
Theorem forecast_reply_contents (env : Env) (r : Request.t) (lat lon : float64)
    (w : WeatherResponse.t) :
  validated env r lat lon ->
  Reply.Body (fst (ServeHTTP env r)) = WeatherPayload w ->
  WeatherResponse.Location w = {| Location.Lat := lat; Location.Lng := lon |} /\
  WeatherResponse.LastUpdated w = time_Now_Format env /\
  exists periods i p,
    forecast_periods env lat lon periods /\ periods !! i = Some p /\
    WeatherResponse.Forecast w = ForecastPeriod.ShortForecast p /\
    WeatherResponse.Details w = ForecastPeriod.DetailedForecast p /\
    WeatherResponse.Temp w = normalizeTemperature env p.
Proof.
  intros Hv Hw.
  rewrite (HandlerFacts.ServeHTTP_validated env r lat lon Hv) in Hw.
  destruct (ResolverFacts.GetForecast_cases env lat lon)
    as [ (e & _ & He) | (periods & i & p & Hper & Hsel & Hrun) ];
    destruct (GetForecast env lat lon []) as [ [e' | w'] tr ];
    cbn [fst snd Reply.Body sendError genericFailure] in *; try discriminate.
  apply HandlerFacts.json_Encode_weather in Hw as [<- _]. injection Hrun as ->.
  split; [ reflexivity | ]. split; [ reflexivity | ].
  exists periods, i, p. split; [ exact Hper | ].
  split; [ | repeat split ].
  unfold selectPeriod in Hsel.
  destruct (scanPeriods 0 periods None) as [ [j q] | ] eqn:Hscan.
  - cbn in Hsel. injection Hsel as -> ->.
    apply ResolverFacts.scanPeriods_lookup in Hscan as [_ Hl].
    replace (i - 0)%nat with i in Hl by lia. exact Hl.
  - destruct periods as [ | q rest ]; [ discriminate | ].
    cbn in Hsel. injection Hsel as <- <-. reflexivity.
Qed.

Lemma forecast_reply_contents_witness :
  let env := Sample.serving [Sample.period "Today" true 75 "F"] in
  let w := buildResponse env (Sample.period "Today" true 75 "F")
             (const 407128 10000) (const (-740060) 10000) in
  WeatherResponse.Location w
  = {| Location.Lat := const 407128 10000; Location.Lng := const (-740060) 10000 |}.
Proof.
  intros env w.
  assert (Hv : validated env (Sample.get "40.7128" "-74.0060")
                 (const 407128 10000) (const (-740060) 10000))
    by SampleFacts.validate.
  assert (Hw : Reply.Body (fst (ServeHTTP env (Sample.get "40.7128" "-74.0060")))
               = WeatherPayload w) by (vm_compute; reflexivity).
  exact (proj1 (forecast_reply_contents env _ _ _ w Hv Hw)).
Defined.

Lemma reply_status_and_header_witness :
  Reply.StatusCode
    (fst (ServeHTTP Sample.offline
            {| Request.Method := "POST"; Request.Query := ∅ |})) = 405.
Proof.
  apply (proj2 (proj1 (proj2 (proj2 (reply_status_and_header Sample.offline
                                       {| Request.Method := "POST"; Request.Query := ∅ |}))))).
  discriminate.
Defined.

(** The outbound calls of a lookup, in order: none, the points request, or
    the points request followed by the request to the URL that step 1
    returned. *)
Lemma GetForecast_requests (env : Env) (lat lon : float64) :
  exists reqs,
    snd (GetForecast env lat lon []) = CallGetForecast lat lon :: map HttpDo reqs /\
    (reqs = [] \/
     reqs = [clientGet (pointsURL env lat lon)] \/
     exists url, reqs = [clientGet (pointsURL env lat lon); clientGet url] /\
                 points_resolved env lat lon url).
Proof.
  unfold GetForecast, fetchForecast, Do, emit, wrap, NewRequest, fail.
  unfold mbind, M_bind, mret, M_ret. cbn.
  destruct (http_NewRequest_err env (pointsURL env lat lon)) eqn:Hreq1; cbn.
  { exists []. split; [ reflexivity | left; reflexivity ]. }
  fold (clientGet (pointsURL env lat lon)).
  destruct (http_Do env 0 (clientGet (pointsURL env lat lon))) as [c | resp1] eqn:Hdo1; cbn.
  { exists [clientGet (pointsURL env lat lon)].
    split; [ reflexivity | right; left; reflexivity ]. }
  destruct (ClientResponse.StatusCode resp1 =? StatusOK) eqn:Hst1; cbn.
  2:{ exists [clientGet (pointsURL env lat lon)].
      split; [ reflexivity | right; left; reflexivity ]. }
  destruct (json_Decode_points env (ClientResponse.Body resp1)) as [c | p1] eqn:Hdec1; cbn.
  { exists [clientGet (pointsURL env lat lon)].
    split; [ reflexivity | right; left; reflexivity ]. }
  destruct (String.eqb (PointsResponse.Forecast p1) "") eqn:Hurl; cbn.
  { exists [clientGet (pointsURL env lat lon)].
    split; [ reflexivity | right; left; reflexivity ]. }
  assert (Hres : points_resolved env lat lon (PointsResponse.Forecast p1)).
  { split; [ exact Hreq1 | ]. exists resp1, p1.
    split; [ exact Hdo1 | ]. split; [ apply Z.eqb_eq; exact Hst1 | ].
    split; [ exact Hdec1 | ]. split; [ reflexivity | ].
    apply String.eqb_neq. exact Hurl. }
  destruct (http_NewRequest_err env (PointsResponse.Forecast p1)); cbn.
  { exists [clientGet (pointsURL env lat lon)].
    split; [ reflexivity | right; left; reflexivity ]. }
  exists [clientGet (pointsURL env lat lon); clientGet (PointsResponse.Forecast p1)].
  split.
  - fold (clientGet (PointsResponse.Forecast p1)).
    destruct (http_Do env 1 (clientGet (PointsResponse.Forecast p1))) as [c | resp2]; cbn;
      [ reflexivity | ].
    destruct (ClientResponse.StatusCode resp2 =? StatusOK); cbn; [ | reflexivity ].
    destruct (json_Decode_forecast env (ClientResponse.Body resp2)); cbn; [ reflexivity | ].
    destruct (selectPeriod _) as [ [i p] | ]; reflexivity.
  - right. right. eexists. split; [ reflexivity | exact Hres ].
Qed.

(** X5: a lookup makes at most two outbound calls; each is a GET that carries
    the identification header; the first goes to the points URL of the
    coordinates and the second, made only when step 1 went through, to the
    URL that step 1 returned. *)
Theorem outbound_calls (env : Env) (lat lon : float64) :
  exists reqs,
    snd (GetForecast env lat lon []) = CallGetForecast lat lon :: map HttpDo reqs /\
    (length reqs <= 2)%nat /\
    Forall (fun req =>
              ClientRequest.Method req = "GET" /\
              ClientRequest.Header req !! "User-Agent"
              = Some "WeatherApp/1.0 (contact@example.com)") reqs /\
    (reqs = [] \/
     ClientRequest.URL <$> reqs !! 0%nat =
     Some ("https://api.weather.gov/points/" +:+ fmt_Sprintf_4f env lat +:+ ","
             +:+ fmt_Sprintf_4f env lon)) /\
    ((length reqs <= 1)%nat \/
     exists req, reqs !! 1%nat = Some req /\
                 points_resolved env lat lon (ClientRequest.URL req)).
Proof.
  destruct (GetForecast_requests env lat lon)
    as (reqs & Htr & [-> | [-> | (url & -> & Hres)] ]);
    eexists; (split; [ exact Htr | ]); cbn.
  - split; [ lia | ]. split; [ constructor | ]. split; left; [ reflexivity | lia ].
  - split; [ lia | ]. split; [ repeat constructor | ].
    split; [ right; reflexivity | left; lia ].
  - split; [ lia | ]. split; [ repeat constructor | ].
    split; [ right; reflexivity | right ].
    eexists. split; [ reflexivity | exact Hres ].
Qed.

(** X6: the lookup returns an error exactly when one of the listed failures
    of the two steps occurs, and the error is the one listed for it. *)
Theorem failure_iff_listed (env : Env) (lat lon : float64) (e : error) :
  fst (GetForecast env lat lon []) = inl e <-> resolver_failure env lat lon e.
Proof.
  split.
  - intros He.
    destruct (ResolverFacts.GetForecast_cases env lat lon)
      as [ (e' & Hf & He') | (periods & i & p & _ & _ & Hw) ].
    + rewrite He in He'. injection He' as <-. exact Hf.
    + rewrite He in Hw. discriminate Hw.
  - apply ResolverFacts.GetForecast_failure.
Qed.

Lemma failure_iff_listed_witness :
  resolver_failure Sample.offline (of_int 40) (of_int (-74))
    (ErrFetchPoints "dial tcp: connection refused").
Proof.
  apply (proj1 (failure_iff_listed Sample.offline (of_int 40) (of_int (-74)) _)).
  vm_compute. reflexivity.
Defined.

(** X7: what the handler leaves behind goes with its status: a 400 or a 405
    ends with nothing called and nothing logged; a 200 has entered the
    resolver and logged nothing; a 500 has entered the resolver and ends
    with exactly one log line, the last event of the trace. *)
Theorem trace_matches_status (env : Env) (r : Request.t) :
  (Reply.StatusCode (fst (ServeHTTP env r)) = 400 \/
   Reply.StatusCode (fst (ServeHTTP env r)) = 405 ->
   snd (ServeHTTP env r) = []) /\
  (Reply.StatusCode (fst (ServeHTTP env r)) = 200 ->
   exists lat lon reqs,
     snd (ServeHTTP env r) = CallGetForecast lat lon :: map HttpDo reqs) /\
  (Reply.StatusCode (fst (ServeHTTP env r)) = 500 ->
   exists lat lon reqs e,
     snd (ServeHTTP env r)
     = CallGetForecast lat lon :: map HttpDo reqs
       ++ [LogPrintf ("Forecast error: " +:+ error_text e)]).
Proof.
  destruct (ServeHTTP_cases env r)
    as [ (_ & ->) | [ (_ & _ & ->) | [ (_ & _ & _ & Hbad) | [ H | H ] ] ] ].
  - cbn. repeat split; try reflexivity; intros H; discriminate H.
  - cbn. repeat split; try reflexivity; intros H; discriminate H.
  - destruct Hbad as [ (_ & ->) | [ (lat & _ & _ & ->) | (lat & lon & _ & _ & _ & ->) ] ];
      cbn; repeat split; try reflexivity; intros H; discriminate H.
  - destruct H as (lat & lon & e & _ & _ & ->).
    destruct (GetForecast_requests env lat lon) as (reqs & Htr & _).
    cbn [fst snd]. rewrite Htr. cbn.
    split; [ intros [H | H]; discriminate H | ].
    split; [ intros H; discriminate H | ].
    intros _. exists lat, lon, reqs, e. reflexivity.
  - destruct H as (lat & lon & periods & i & p & _ & _ & _ & ->).
    destruct (GetForecast_requests env lat lon) as (reqs & Htr & _).
    cbn [fst snd]. rewrite Htr. cbn.
    split; [ intros [H | H]; discriminate H | ].
    split; [ | intros H; discriminate H ].
    intros _. exists lat, lon, reqs. reflexivity.
Qed.

Lemma trace_matches_status_witness :
  snd (ServeHTTP (Sample.serving [Sample.period "Today" true 75 "F"])
         (Sample.get "91" "-74")) = [].
Proof.
  apply (proj1 (trace_matches_status _ (Sample.get "91" "-74"))).
  left. vm_compute. reflexivity.
Defined.

(* ===================================================================== *)
(** * Further properties of the period selection                          *)
(* ===================================================================== *)

(** The scan stops at the first period that is named today or is daytime;
    when it finds none, no period of the list is either. *)
Lemma scanPeriods_spec (periods : list ForecastPeriod.t) :
  forall k,
  match scanPeriods k periods None with
  | Some (j, p) =>
      (k <= j)%nat /\ periods !! (j - k)%nat = Some p /\ scanMatch p = true /\
      forall j' q, (j' < j - k)%nat -> periods !! j' = Some q -> scanMatch q = false
  | None => Forall (fun q => scanMatch q = false) periods
  end.
Proof.
  induction periods as [ | q rest IH ]; intros k.
  - constructor.
  - rewrite ResolverFacts.scanPeriods_cons. fold (scanMatch q).
    destruct (scanMatch q) eqn:Hq.
    + split; [ lia | ]. replace (k - k)%nat with 0%nat by lia.
      split; [ reflexivity | ]. split; [ exact Hq | ]. intros j' q' Hlt. lia.
    + specialize (IH (S k)).
      destruct (scanPeriods (S k) rest None) as [ [j p] | ].
      * destruct IH as (Hle & Hl & Hp & Hbefore).
        split; [ lia | ].
        replace (j - k)%nat with (S (j - S k)) by lia.
        split; [ exact Hl | ]. split; [ exact Hp | ].
        intros [ | j' ] q' Hlt Hq'.
        -- cbn in Hq'. injection Hq' as <-. exact Hq.
        -- apply (Hbefore j' q'); [ lia | exact Hq' ].
      * constructor; assumption.
Qed.

(** X8: the selected period is an element of the list at the returned index,
    no period before it is named today or daytime, and it is itself named
    today or daytime unless no period of the list is, in which case it is
    the first one.  In particular a period named today is passed over when
    a daytime period comes before it. *)
Theorem selectPeriod_first_match (periods : list ForecastPeriod.t) (i : nat)
    (p : ForecastPeriod.t) :
  selectPeriod periods = Some (i, p) ->
  periods !! i = Some p /\
  (forall j q, (j < i)%nat -> periods !! j = Some q ->
     namedToday q = false /\ ForecastPeriod.IsDaytime q = false) /\
  (namedToday p = true \/ ForecastPeriod.IsDaytime p = true \/
   (i = 0%nat /\
    Forall (fun q => namedToday q = false /\ ForecastPeriod.IsDaytime q = false) periods)).
Proof.
  unfold selectPeriod. pose proof (scanPeriods_spec periods 0%nat) as Hspec.
  destruct (scanPeriods 0 periods None) as [ [j q] | ].
  - cbn. intros H. injection H as -> ->.
    destruct Hspec as (_ & Hl & Hp & Hbefore).
    replace (i - 0)%nat with i in * by lia.
    split; [ exact Hl | ]. split.
    + intros j q Hlt Hq. apply orb_false_elim. apply (Hbefore j q Hlt Hq).
    + unfold scanMatch in Hp. apply orb_true_iff in Hp as [Hp | Hp]; auto.
  - destruct periods as [ | q rest ]; [ discriminate | ].
    cbn. intros H. injection H as <- <-.
    split; [ reflexivity | ]. split; [ intros j q' Hlt; lia | ].
    right. right. split; [ reflexivity | ].
    eapply Forall_impl; [ exact Hspec | ].
    intros a Ha. apply orb_false_elim. exact Ha.
Qed.

Lemma selectPeriod_first_match_witness :
  let periods := [Sample.period "Tonight" false 55 "F";
                  Sample.period "Monday" true 70 "F";
                  Sample.period "Today" true 80 "F"] in
  periods !! 1%nat = Some (Sample.period "Monday" true 70 "F").
Proof.
  intros periods.
  apply (selectPeriod_first_match periods 1 (Sample.period "Monday" true 70 "F")).
  vm_compute. reflexivity.
Defined.

(** X9: the lookup fails with "no forecast periods available" exactly when
    the period list that the upstream served is empty. *)
Theorem no_periods_iff_empty (env : Env) (lat lon : float64)
    (periods : list ForecastPeriod.t) :
  forecast_periods env lat lon periods ->
  (fst (GetForecast env lat lon []) = inl ErrNoPeriods <-> periods = []).
Proof.
  intros Hper.
  destruct (ResolverFacts.GetForecast_periods env lat lon periods Hper) as (url & ->).
  cbn [fst]. split.
  - destruct periods as [ | q rest ]; [ reflexivity | ].
    destruct (ResolverFacts.selectPeriod_cons q rest) as (i & p & ->). discriminate.
  - intros ->. reflexivity.
Qed.

Lemma no_periods_iff_empty_witness :
  fst (GetForecast (Sample.serving []) (of_int 40) (of_int (-74)) []) = inl ErrNoPeriods.
Proof.
  apply (proj2 (no_periods_iff_empty (Sample.serving []) (of_int 40) (of_int (-74)) []
                  (SampleFacts.serving_periods [] _ _))).
  reflexivity.
Defined.

Module StringFacts.

Lemma prefix_spec (a s : string) :
  String.prefix a s = true <-> exists post, s = a +:+ post.
Proof.
  revert s. induction a as [ | c a IH ]; intros s.
  - destruct s; cbn; (split; [ intros _; eexists; reflexivity | reflexivity ]).
  - destruct s as [ | d s ]; cbn.
    + split; [ discriminate | intros (post & H); discriminate H ].
    + destruct (ascii_dec c d) as [-> | Hne].
      * rewrite IH. split; intros (post & H); exists post.
        -- cbn. rewrite H. reflexivity.
        -- cbn in H. injection H as H. exact H.
      * split; [ discriminate | intros (post & H) ].
        cbn in H. injection H as Hc _. congruence.
Qed.

(** [Contains s sub] holds exactly when [sub] occurs in [s]. *)
Lemma Contains_spec (s sub : string) :
  Strings.Contains s sub = true <-> exists pre post, s = pre +:+ sub +:+ post.
Proof.
  induction s as [ | c s IH ]; cbn [Strings.Contains].
  - rewrite orb_false_r, prefix_spec. split.
    + intros (post & H). exists "", post. exact H.
    + intros ([ | d pre ] & post & H); [ exists post; exact H | discriminate H ].
  - rewrite orb_true_iff, prefix_spec, IH. split.
    + intros [ (post & H) | (pre & post & H) ].
      * exists "", post. exact H.
      * exists (String c pre), post. rewrite H. reflexivity.
    + intros ([ | d pre ] & post & H).
      * left. exists post. exact H.
      * right. exists pre, post. cbn in H. injection H as _ H. exact H.
Qed.

Lemma ToLower_app (a b : string) :
  Strings.ToLower (a +:+ b) = Strings.ToLower a +:+ Strings.ToLower b.
Proof.
  induction a as [ | c a IH ]; [ reflexivity | ].
  change (String (Strings.lower c) (Strings.ToLower (a +:+ b))
          = String (Strings.lower c) (Strings.ToLower a +:+ Strings.ToLower b)).
  rewrite IH. reflexivity.
Qed.

(** A split of the lower-cased text comes from a split of the text. *)
Lemma ToLower_split (s x y : string) :
  Strings.ToLower s = x +:+ y ->
  exists a b, s = a +:+ b /\ Strings.ToLower a = x /\ Strings.ToLower b = y.
Proof.
  revert s. induction x as [ | c x IH ]; intros s H.
  - exists "", s. repeat split. exact H.
  - destruct s as [ | d s ]; [ discriminate H | ].
    cbn in H. injection H as Hc Hrest.
    destruct (IH s Hrest) as (a & b & -> & Ha & Hb).
    exists (String d a), b. cbn. rewrite Ha, Hc. repeat split. exact Hb.
Qed.

End StringFacts.

(** X10: the name test of the scan ignores the case of ASCII letters and the
    position of the word: a period counts as named today exactly when its
    name contains five consecutive bytes that lower-case to "today". *)
Theorem namedToday_iff_occurrence (p : ForecastPeriod.t) :
  namedToday p = true <->
  exists pre word post,
    ForecastPeriod.Name p = pre +:+ word +:+ post /\ Strings.ToLower word = "today".
Proof.
  unfold namedToday. rewrite StringFacts.Contains_spec. split.
  - intros (pre & post & H).
    apply StringFacts.ToLower_split in H as (a & rest & Hname & _ & Hrest).
    apply StringFacts.ToLower_split in Hrest as (word & b & -> & Hword & _).
    exists a, word, b. split; assumption.
  - intros (pre & word & post & -> & Hword).
    exists (Strings.ToLower pre), (Strings.ToLower post).
    rewrite !StringFacts.ToLower_app, Hword. reflexivity.
Qed.

Lemma namedToday_iff_occurrence_witness :
  namedToday (Sample.period "Rest of TODAY" true 75 "F") = true.
Proof.
  apply (proj2 (namedToday_iff_occurrence (Sample.period "Rest of TODAY" true 75 "F"))).
  exists "Rest of ", "TODAY", "". split; reflexivity.
Defined.

(* ===================================================================== *)
(** * The log line names the failure                                      *)
(* ===================================================================== *)

Module ErrorFacts.

Lemma to_int_norm (n : Z) : Decimal.norm (Z.to_int n) = Z.to_int n.
Proof. rewrite <- DecimalZ.to_of, DecimalZ.of_to. reflexivity. Qed.

(** The verb [%d] prints different integers differently. *)
Lemma itoa_inj (n m : Z) : itoa n = itoa m -> n = m.
Proof.
  unfold itoa. intros H. apply DecimalZ.to_int_inj.
  assert (Hnil : forall k, Z.to_int k <> Decimal.Pos Decimal.Nil /\
                           Z.to_int k <> Decimal.Neg Decimal.Nil).
  { intros k. pose proof (to_int_norm k) as Hk.
    split; intros E; rewrite E in Hk; discriminate Hk. }
  apply (f_equal NilZero.int_of_string) in H.
  rewrite !NilZero.isi in H by apply Hnil. congruence.
Qed.

Lemma append_inj_l (pre a b : string) : pre +:+ a = pre +:+ b -> a = b.
Proof.
  induction pre as [ | c pre IH ]; intros H; [ exact H | ].
  apply IH. change (String c (pre +:+ a) = String c (pre +:+ b)) in H.
  injection H as H. exact H.
Qed.

End ErrorFacts.

(** X11: two errors of the resolver with the same text are the same error: the
    log line tells the step and the kind of the failure, and the wrapped
    cause or the upstream status with it. *)
Theorem error_text_injective (e1 e2 : error) :
  error_text e1 = error_text e2 -> e1 = e2.
Proof.
  destruct e1, e2; unfold error_text; intros H; try reflexivity;
    try (apply ErrorFacts.append_inj_l in H; first [ rewrite H | apply ErrorFacts.itoa_inj in H; rewrite H ]; reflexivity);
    exfalso; unfold String.append in H; discriminate H.
Qed.

Lemma error_text_injective_witness :
  ErrForecastStatus 503 = ErrForecastStatus (500 + 3).
Proof. apply error_text_injective. vm_compute. reflexivity. Defined.

(* ===================================================================== *)
(** * Further properties of the temperature path                          *)
(* ===================================================================== *)

(** X12: a warmer integer temperature never falls into a colder bucket. *)
Theorem classification_monotone (t1 t2 : Z) :
  t1 <= t2 ->
  bucket_rank (getTempType (of_int t1)) <= bucket_rank (getTempType (of_int t2)).
Proof.
  intros H. rewrite !Float64Facts.getTempType_of_int. unfold int_bucket.
  destruct (Z.leb_spec 90 t1), (Z.leb_spec 90 t2),
           (Z.leb_spec 61 t1), (Z.leb_spec 61 t2); cbn; lia.
Qed.

Lemma classification_monotone_witness :
  bucket_rank (getTempType (of_int 60)) <= bucket_rank (getTempType (of_int 61)).
Proof. apply classification_monotone. lia. Defined.

(** X13: a Celsius reading [t] between -1000 and 1000 is classified after the
    fraction of its Fahrenheit value is dropped: hot from 33 up, moderate
    from 17 to 32, cold up to 16.  So 32 degrees Celsius, 89.6 in
    Fahrenheit, is answered as 89 and moderate, and 16 degrees Celsius,
    60.8 in Fahrenheit, as 60 and cold. *)
Theorem celsius_classification (env : Env) (p : ForecastPeriod.t) (lat lon : float64) :
  ForecastPeriod.TemperatureUnit p = "C" ->
  -1000 <= ForecastPeriod.Temperature p <= 1000 ->
  WeatherResponse.TempType (buildResponse env p lat lon)
  = celsius_bucket (ForecastPeriod.Temperature p).
Proof.
  intros Hu Ht. cbn [buildResponse WeatherResponse.TempType].
  rewrite Float64Facts.getTempType_of_int.
  rewrite (TemperatureFacts.normalizeTemperature_celsius env p Hu).
  rewrite TemperatureFacts.to_int_fahrenheit by exact Ht.
  set (t := ForecastPeriod.Temperature p) in *.
  unfold int_bucket, celsius_bucket.
  assert (Hq : forall a, 0 <= a -> a - 4 <= 5 * Z.quot a 5 <= a).
  { intros a Ha. pose proof (Z.quot_rem' a 5). pose proof (Z.rem_bound_pos a 5). lia. }
  assert (Hn : forall a, a <= 0 -> a <= 5 * Z.quot a 5 <= a + 4).
  { intros a Ha. pose proof (Z.quot_rem' a 5).
    pose proof (Z.rem_bound_pos_neg a 5). lia. }
  destruct (Z_le_gt_dec 0 (9 * t + 160)) as [Hpos | Hneg].
  - specialize (Hq _ Hpos).
    destruct (Z.leb_spec 90 (Z.quot (9 * t + 160) 5)), (Z.leb_spec 33 t),
             (Z.leb_spec 61 (Z.quot (9 * t + 160) 5)), (Z.leb_spec 17 t);
      try reflexivity; lia.
  - assert (Hle : 9 * t + 160 <= 0) by lia. specialize (Hn _ Hle).
    destruct (Z.leb_spec 90 (Z.quot (9 * t + 160) 5)), (Z.leb_spec 33 t),
             (Z.leb_spec 61 (Z.quot (9 * t + 160) 5)), (Z.leb_spec 17 t);
      try reflexivity; lia.
Qed.

Lemma celsius_classification_witness :
  WeatherResponse.TempType
    (buildResponse Sample.offline (Sample.period "Today" true 32 "C") (of_int 0) (of_int 0))
  = "moderate" /\
  WeatherResponse.TempType
    (buildResponse Sample.offline (Sample.period "Today" true 16 "C") (of_int 0) (of_int 0))
  = "cold".
Proof.
  split.
  - apply (celsius_classification Sample.offline (Sample.period "Today" true 32 "C"));
      [ reflexivity | cbn; lia ].
  - apply (celsius_classification Sample.offline (Sample.period "Today" true 16 "C"));
      [ reflexivity | cbn; lia ].
Defined.

(* ===================================================================== *)
(** * The range check on whole degrees                                    *)
(* ===================================================================== *)

Module RangeFacts.

Import Float64Facts.

Lemma digits_ge_10 (p : positive) : 512 <= Z.pos p -> 10 <= Z.pos (digits2_pos p).
Proof.
  intros H. pose proof (digits2_pos_bounds p) as [_ Hhi].
  destruct (Z_lt_le_dec (Z.pos (digits2_pos p)) 10) as [Hs | Hs]; [ | exact Hs ].
  assert (2 ^ Z.pos (digits2_pos p) <= 2 ^ 9) by (apply Z.pow_le_mono_r; lia).
  change (2 ^ 9) with 512 in *. lia.
Qed.

(** Far above a bound of small exponent. *)
Lemma compare_large_pos (p mc : positive) (sc : bool) (ec : Z) :
  ec <= -45 -> 512 <= Z.pos p ->
  SFcompare (of_int (Z.pos p)) (S754_finite sc mc ec) = Some Gt.
Proof.
  intros Hec Hp. apply digits_ge_10 in Hp.
  destruct (of_int_pos_shape p) as [-> | (m & e & -> & He)]; [ reflexivity | ].
  cbn [SFcompare]. destruct sc; [ reflexivity | ].
  destruct (Z.compare_spec e ec); first [ lia | reflexivity ].
Qed.

(** Far below a bound of small exponent. *)
Lemma compare_large_neg (p mc : positive) (sc : bool) (ec : Z) :
  ec <= -45 -> 512 <= Z.pos p ->
  SFcompare (of_int (Z.neg p)) (S754_finite sc mc ec) = Some Lt.
Proof.
  intros Hec Hp. apply digits_ge_10 in Hp.
  destruct (of_int_neg_shape p) as [-> | (m & e & -> & He)]; [ reflexivity | ].
  cbn [SFcompare]. destruct sc; [ | reflexivity ].
  destruct (Z.compare_spec e ec); first [ lia | reflexivity ].
Qed.

Lemma compares_small :
  forallb (fun c => check_from (-511) 1023 (compares_at c)) [-180; -90; 90; 180] = true.
Proof. vm_compute. reflexivity. Qed.

Lemma bounds_shape :
  Forall (fun c => exists sc mc ec, of_int c = S754_finite sc mc ec /\ ec <= -45)
         [-180; -90; 90; 180].
Proof.
  repeat constructor; eexists _, _, _; (split; [ vm_compute; reflexivity | lia ]).
Qed.

(** Against the four bounds of the handler, the comparison of the
    float64 values of integers is the comparison of the integers. *)
Lemma compare_of_int (c n : Z) :
  In c [-180; -90; 90; 180] ->
  SFcompare (of_int n) (of_int c) = Some (n ?= c).
Proof.
  intros Hc.
  assert (Hsmall : -512 < n < 512 -> compares_at c n = true).
  { intros Hn. pose proof compares_small as Hall.
    rewrite forallb_forall in Hall. specialize (Hall c Hc).
    apply (check_from_sound 1023 _ (-511) Hall). lia. }
  assert (Hshape : exists sc mc ec, of_int c = S754_finite sc mc ec /\ ec <= -45).
  { pose proof bounds_shape as Hall. rewrite List.Forall_forall in Hall.
    apply Hall. exact Hc. }
  assert (Hbound : -180 <= c <= 180).
  { cbn in Hc. lia. }
  destruct (Z_lt_le_dec n 512) as [Hlt | Hge]; [ destruct (Z_lt_le_dec (-512) n) as [Hgt | Hle] | ].
  - specialize (Hsmall (conj Hgt Hlt)). unfold compares_at in Hsmall.
    destruct (SFcompare (of_int n) (of_int c)) as [o | ]; [ | discriminate ].
    destruct o, (n ?= c); first [ reflexivity | discriminate ].
  - destruct Hshape as (sc & mc & ec & -> & Hec).
    destruct n as [ | p | p ]; try lia.
    rewrite compare_large_neg by lia.
    f_equal. symmetry. apply Z.compare_lt_iff. lia.
  - destruct Hshape as (sc & mc & ec & -> & Hec).
    destruct n as [ | p | p ]; try lia.
    rewrite compare_large_pos by lia.
    f_equal. symmetry. apply Z.compare_gt_iff. lia.
Qed.

Lemma ltb_of_int (c n : Z) :
  In c [-180; -90; 90; 180] -> ltb (of_int n) (of_int c) = (n <? c).
Proof.
  intros Hc. unfold ltb, SFltb. rewrite (compare_of_int c n Hc).
  unfold Z.ltb. destruct (n ?= c); reflexivity.
Qed.

Lemma gtb_of_int (c n : Z) :
  In c [-180; -90; 90; 180] -> gtb (of_int n) (of_int c) = (c <? n).
Proof.
  intros Hc. unfold gtb, SFltb.
  rewrite (CompareFacts.SFcompare_swap (of_int n) (of_int c)), (compare_of_int c n Hc).
  unfold Z.ltb. rewrite (Z.compare_antisym n c).
  destruct (n ?= c); reflexivity.
Qed.

Lemma outOfRange_of_int (n m : Z) :
  outOfRange (of_int n) (of_int m)
  = (n <? -90) || (90 <? n) || (m <? -180) || (180 <? m).
Proof.
  unfold outOfRange.
  rewrite (ltb_of_int (-90) n), (gtb_of_int 90 n),
          (ltb_of_int (-180) m), (gtb_of_int 180 m) by (cbn; tauto).
  reflexivity.
Qed.

End RangeFacts.

(** X14: for coordinates that are whole degrees, whatever their size, the
    handler answers "Invalid coords" exactly when the latitude is outside
    -90..90 or the longitude outside -180..180, as integers. *)
Theorem range_check_on_whole_degrees (env : Env) (r : Request.t) (n m : Z) :
  Request.Method r = "GET" ->
  Values_Get (Request.Query r) "lat" <> "" ->
  Values_Get (Request.Query r) "lon" <> "" ->
  strconv_ParseFloat env (Values_Get (Request.Query r) "lat") = Some (of_int n) ->
  strconv_ParseFloat env (Values_Get (Request.Query r) "lon") = Some (of_int m) ->
  (fst (ServeHTTP env r) = sendError 400 "Invalid coords" "Check your lat/lon values"
   <-> n < -90 \/ 90 < n \/ m < -180 \/ 180 < m).
Proof.
  intros Hm Hlat Hlon Hplat Hplon.
  rewrite (HandlerFacts.ServeHTTP_parsed env r Hm Hlat Hlon), Hplat, Hplon.
  fold (outOfRange (of_int n) (of_int m)). rewrite RangeFacts.outOfRange_of_int.
  destruct (Z.ltb_spec n (-90)), (Z.ltb_spec 90 n),
           (Z.ltb_spec m (-180)), (Z.ltb_spec 180 m); cbn [orb fst];
    try (split; [ intros _; lia | reflexivity ]).
  split; [ | lia ].
  destruct (GetForecast env (of_int n) (of_int m) []) as [ [e | w] tr ]; cbn;
    intros Habs; discriminate Habs.
Qed.

Lemma range_check_on_whole_degrees_witness :
  fst (ServeHTTP Sample.offline (Sample.get "-91" "0"))
  = sendError 400 "Invalid coords" "Check your lat/lon values".
Proof.
  apply (proj2 (range_check_on_whole_degrees Sample.offline (Sample.get "-91" "0")
                  (-91) 0 eq_refl
                  ltac:(vm_compute; discriminate) ltac:(vm_compute; discriminate)
                  ltac:(vm_compute; reflexivity) ltac:(vm_compute; reflexivity))).
  lia.
Defined.

(* ===================================================================== *)
(** * The body of a successful reply                                      *)
(* ===================================================================== *)

(** X17: when a valid request finds a period, the reply is 200 with the
    JSON content type; its body is the forecast built from that period if
    both coordinates are finite, and empty if one is a NaN, which the
    range check lets through and the encoder refuses. *)
Theorem success_body_or_nothing (env : Env) (r : Request.t) (lat lon : float64)
    (periods : list ForecastPeriod.t) (i : nat) (p : ForecastPeriod.t) :
  validated env r lat lon ->
  forecast_periods env lat lon periods ->
  selectPeriod periods = Some (i, p) ->
  fst (ServeHTTP env r) =
  {| Reply.Header := jsonHeader;
     Reply.StatusCode := 200;
     Reply.Body := if is_finite lat && is_finite lon
                   then WeatherPayload (buildResponse env p lat lon)
                   else NoPayload |}.
Proof.
  intros Hv Hper Hsel.
  rewrite (HandlerFacts.ServeHTTP_validated env r lat lon Hv).
  destruct (ResolverFacts.GetForecast_periods env lat lon periods Hper) as (url & ->).
  rewrite Hsel. reflexivity.
Qed.

Lemma success_body_or_nothing_witness :
  Reply.Body
    (fst (ServeHTTP (Sample.serving [Sample.period "Today" true 75 "F"])
            (Sample.get "NaN" "-74"))) = NoPayload.
Proof.
  rewrite (success_body_or_nothing
             (Sample.serving [Sample.period "Today" true 75 "F"])
             (Sample.get "NaN" "-74") S754_nan (of_int (-74))
             [Sample.period "Today" true 75 "F"] 0%nat
             (Sample.period "Today" true 75 "F")
             ltac:(SampleFacts.validate)
             (SampleFacts.serving_periods _ _ _) eq_refl).
  reflexivity.
Defined.
